(** * Cache interceptors of the ajax package

    A shallow embedding of [packages/ajax/src/interceptors/cacheInterceptors.js]:
    the pure predicates of the file, the two interceptors written in a small
    resumption monad (synchronous calls into the cache manager, and the
    [await] points at which the interceptor is suspended), and the cache
    manager the interceptors import, which is modelled from the specification.

    Sizes, ages and timestamps are integers ([Z]); an absent (undefined)
    property of a JavaScript object is [None]. *)

From Stdlib Require Import ZArith String Ascii List Bool Lia.
From stdpp Require Import base option gmap strings list.

Local Open Scope Z_scope.
Local Open Scope string_scope.

(** ** Host objects *)

(** The part of a fetch [Request] the interceptors read. *)
Record Request := {
  method : string;
  url : string;
}.

(** [Headers]: a list of name/value pairs; [Headers.get] is case-insensitive on
    the name and joins the values of a repeated header with a comma. *)
Definition Headers := list (string * string).

Definition lower_ascii (c : ascii) : ascii :=
  let n := nat_of_ascii c in
  if (Nat.leb 65 n && Nat.leb n 90)%bool then ascii_of_nat (n + 32) else c.

(** [String.prototype.toLowerCase], on the ASCII letters. *)
Fixpoint toLowerCase (s : string) : string :=
  match s with
  | EmptyString => EmptyString
  | String c s' => String (lower_ascii c) (toLowerCase s')
  end.

Fixpoint join (sep : string) (l : list string) : string :=
  match l with
  | [] => ""
  | [x] => x
  | x :: l' => x ++ sep ++ join sep l'
  end.

Definition headers_get (name : string) (h : Headers) : option string :=
  match List.filter (fun kv => String.eqb (toLowerCase (fst kv)) (toLowerCase name)) h with
  | [] => None
  | kvs => Some (join ", " (List.map snd kvs))
  end.

(** A fetch [Response]: its headers and the byte length of its body (what
    [blob().size] gives once the body is read). *)
Record Response := {
  headers : Headers;
  bodySize : Z;
}.

(** [response.clone()]: a new object with the same headers and body. Properties
    added to the original object by this layer ([request], [fromCache]) are not
    part of a [Response] and so are not carried over. *)
Definition clone (r : Response) : Response :=
  {| headers := headers r; bodySize := bodySize r |}.

(** ** Cache options *)

(** [CacheOptions] as callers give them: every property may be absent. *)
Record CacheOptions := {
  useCache : option bool;
  requestIdFunction : option (Request -> string);
  methods : option (list string);
  contentTypes : option (list string);
  maxAge : option Z;
  maxResponseSize : option Z;
  maxCacheSize : option Z;
}.

(** The result of [extendCacheOptions]: the defaults are filled in. *)
Record ValidatedCacheOptions := {
  v_useCache : bool;
  v_requestIdFunction : Request -> string;
  v_methods : list string;
  v_contentTypes : option (list string);
  v_maxAge : option Z;
  v_maxResponseSize : option Z;
  v_maxCacheSize : option Z;
}.

(** The resolved options seen again as a [CacheOptions] object, for
    [request.cacheOptions = cacheOptions]. *)
Definition asCacheOptions (o : ValidatedCacheOptions) : CacheOptions :=
  {| useCache := Some (v_useCache o);
     requestIdFunction := Some (v_requestIdFunction o);
     methods := Some (v_methods o);
     contentTypes := v_contentTypes o;
     maxAge := v_maxAge o;
     maxResponseSize := v_maxResponseSize o;
     maxCacheSize := v_maxCacheSize o |}.

Definition orElse {A} (x y : option A) : option A :=
  match x with Some _ => x | None => y end.

(** [{ ...globalCacheOptions, ...requestCacheOptions }]: a property of the
    second object overrides the same property of the first; the second object
    may be undefined. *)
Definition spread (g : CacheOptions) (r : option CacheOptions) : CacheOptions :=
  match r with
  | None => g
  | Some r =>
    {| useCache := orElse (useCache r) (useCache g);
       requestIdFunction := orElse (requestIdFunction r) (requestIdFunction g);
       methods := orElse (methods r) (methods g);
       contentTypes := orElse (contentTypes r) (contentTypes g);
       maxAge := orElse (maxAge r) (maxAge g);
       maxResponseSize := orElse (maxResponseSize r) (maxResponseSize g);
       maxCacheSize := orElse (maxCacheSize r) (maxCacheSize g) |}
  end.

(** [CacheRequest]: a request with the two properties this layer attaches. *)
Record CacheRequest := {
  req :> Request;
  cacheOptions : option CacheOptions;
  cacheSessionId : option string;
}.

(** [CacheResponse]: a response with its originating request and the
    [fromCache] flag (absent reads as false). *)
Record CacheResponse := {
  res :> Response;
  request : option CacheRequest;
  fromCache : bool;
}.

(** JavaScript truthiness of an optional number: defined and not zero. *)
Definition truthy (n : option Z) : bool :=
  match n with
  | Some z => negb (Z.eqb z 0)
  | None => false
  end.

(** ** The pure predicates of cacheInterceptors.js *)

(** [methods.includes(method.toLowerCase())] *)
Definition isMethodSupported (methods : list string) (method : string) : bool :=
  existsb (String.eqb (toLowerCase method)) methods.

(** [String.prototype.includes] *)
Fixpoint includes (s sub : string) : bool :=
  if String.prefix sub s then true
  else match s with
       | EmptyString => false
       | String _ s' => includes s' sub
       end.

(** [String(x)] of a header value: an absent header reads as null. *)
Definition String_ (v : option string) : string :=
  match v with
  | Some s => s
  | None => "null"
  end.

(** [Array.isArray(contentTypes)] fails on an absent whitelist; otherwise
    [find] gives the first whitelisted fragment the header contains, and [!!]
    of a found string is false for the empty string. *)
Definition isResponseContentTypeSupported
    (response : Response) (contentTypes : option (list string)) : bool :=
  match contentTypes with
  | None => true
  | Some cts =>
    match List.find (fun ct => includes (String_ (headers_get "Content-Type" (headers response))) ct) cts with
    | Some ct => negb (String.eqb ct "")
    | None => false
    end
  end.

(** [isResponseSizeSupported]; [!x] of an optional number is [negb (truthy x)]. *)
Definition isResponseSizeSupported (responseSize maxResponseSize : option Z) : bool :=
  if negb (truthy maxResponseSize) then true
  else if negb (truthy responseSize) then true
  else match responseSize, maxResponseSize with
       | Some s, Some m => Z.leb s m
       | _, _ => true
       end.

(** ** The cache manager and the host, as a state *)

(** What the session-id provider answers: a string, or a promise of one. *)
Inductive CacheIdResult :=
| Direct (id : string)
| Deferred (id : string).

Record CacheEntry := {
  entry_response : Response;
  entry_size : Z;
  entry_createdAt : Z;
}.

(** The process-wide state the interceptors act on: the host clock, the
    session gate, the pending registry (a waitable is named by a number; the
    set [settled] holds the waitables that were resolved) and the cache store
    with its running total size. *)
Record World := {
  now : Z;
  currentSessionId : option string;
  pendingRequests : gmap string nat;
  settled : gset nat;
  nextWaitable : nat;
  cacheEntries : gmap string CacheEntry;
  cacheSize : Z;
}.

Definition with_session (s : option string) (w : World) : World :=
  {| now := now w; currentSessionId := s;
     pendingRequests := pendingRequests w; settled := settled w;
     nextWaitable := nextWaitable w;
     cacheEntries := cacheEntries w; cacheSize := cacheSize w |}.

Definition with_pending (p : gmap string nat) (s : gset nat) (n : nat) (w : World) : World :=
  {| now := now w; currentSessionId := currentSessionId w;
     pendingRequests := p; settled := s; nextWaitable := n;
     cacheEntries := cacheEntries w; cacheSize := cacheSize w |}.

Definition with_cache (c : gmap string CacheEntry) (total : Z) (w : World) : World :=
  {| now := now w; currentSessionId := currentSessionId w;
     pendingRequests := pendingRequests w; settled := settled w;
     nextWaitable := nextWaitable w;
     cacheEntries := c; cacheSize := total |}.

Section CacheManager.

(** The defaults [extendCacheOptions] fills in are constants of the cache
    manager. *)
Variable defaultMethods : list string.
Variable defaultRequestIdFunction : Request -> string.

(** Modelled from the spec: [extendCacheOptions] of cacheManager.js is not
    among the sources. It fills the absent properties of the merged options:
    [useCache] defaults to true, [methods] to the default read verbs,
    [requestIdFunction] to the default one; the other properties stay
    optional. *)
Definition extendCacheOptions (o : CacheOptions) : ValidatedCacheOptions :=
  {| v_useCache := default true (useCache o);
     v_requestIdFunction := default defaultRequestIdFunction (requestIdFunction o);
     v_methods := default defaultMethods (methods o);
     v_contentTypes := contentTypes o;
     v_maxAge := maxAge o;
     v_maxResponseSize := maxResponseSize o;
     v_maxCacheSize := maxCacheSize o |}.

Definition nonNegative (n : option Z) : bool :=
  match n with
  | Some z => Z.leb 0 z
  | None => true
  end.

(** Modelled from the spec: [validateCacheOptions] of cacheManager.js is not
    among the sources. It fails with a ConfigError on a negative size or
    duration (the other wrong shapes it rejects are excluded by the types
    here); absent options are valid. *)
Definition validCacheOptions (o : option CacheOptions) : bool :=
  match o with
  | None => true
  | Some o => nonNegative (maxAge o) && nonNegative (maxResponseSize o)
              && nonNegative (maxCacheSize o)
  end.

(** Modelled from the spec: [resetCacheSession] of cacheManager.js is not
    among the sources. It overwrites the current session identifier. *)
Definition resetCacheSession (id : string) (w : World) : World :=
  with_session (Some id) w.

(** Modelled from the spec: [isCurrentSessionId] of cacheManager.js is not
    among the sources. Equality with the current session identifier at the
    instant of the call. *)
Definition isCurrentSessionId (id : option string) (w : World) : bool :=
  bool_decide (currentSessionId w = id).

(** Modelled from the spec: [pendingRequestStore] of cacheManager.js is not
    among the sources. [get] gives the waitable of a key, [set] creates a
    fresh one, [resolve] settles the waitable and removes the entry, and does
    nothing for a key with no entry. *)
Definition pendingRequestStore_get (requestId : string) (w : World) : option nat :=
  pendingRequests w !! requestId.

Definition pendingRequestStore_set (requestId : string) (w : World) : World :=
  with_pending (<[requestId := nextWaitable w]> (pendingRequests w))
               (settled w) (S (nextWaitable w)) w.

Definition pendingRequestStore_resolve (requestId : string) (w : World) : World :=
  match pendingRequests w !! requestId with
  | Some p => with_pending (delete requestId (pendingRequests w))
                           ({[ p ]} ∪ settled w) (nextWaitable w) w
  | None => w
  end.

Definition withinLimit (x : Z) (limit : option Z) : bool :=
  match limit with
  | Some l => Z.leb x l
  | None => true
  end.

(** Modelled from the spec: [ajaxCache] of cacheManager.js is not among the
    sources. [get] gives the stored response when its age and its size are
    within the limits of the call, and leaves a failing entry in place;
    [set] inserts or overwrites, stamps the entry with the current time and
    keeps the running total; [truncateTo] evicts the oldest entry while the
    total exceeds the budget. *)
Definition ajaxCache_get (requestId : string) (maxAge maxResponseSize : option Z)
    (w : World) : option Response :=
  match cacheEntries w !! requestId with
  | Some e =>
    if withinLimit (now w - entry_createdAt e) maxAge
       && withinLimit (entry_size e) maxResponseSize
    then Some (entry_response e) else None
  | None => None
  end.

Definition storedSize (requestId : string) (c : gmap string CacheEntry) : Z :=
  match c !! requestId with
  | Some e => entry_size e
  | None => 0
  end.

Definition ajaxCache_set (requestId : string) (response : Response) (size : Z)
    (w : World) : World :=
  with_cache
    (<[requestId := {| entry_response := response; entry_size := size;
                       entry_createdAt := now w |}]> (cacheEntries w))
    (cacheSize w - storedSize requestId (cacheEntries w) + size) w.

Definition older (a b : string * CacheEntry) : string * CacheEntry :=
  if Z.leb (entry_createdAt (snd a)) (entry_createdAt (snd b)) then a else b.

Definition oldestEntry (c : gmap string CacheEntry) : option string :=
  match map_to_list c with
  | [] => None
  | x :: l => Some (fst (fold_left older l x))
  end.

Fixpoint truncateLoop (fuel : nat) (budget : Z) (c : gmap string CacheEntry) (total : Z)
    : gmap string CacheEntry * Z :=
  match fuel with
  | O => (c, total)
  | S fuel' =>
    if Z.ltb budget total then
      match oldestEntry c with
      | Some k => truncateLoop fuel' budget (delete k c) (total - storedSize k c)
      | None => (c, total)
      end
    else (c, total)
  end.

Definition ajaxCache_truncateTo (budget : Z) (w : World) : World :=
  let '(c, total) := truncateLoop (size (cacheEntries w)) budget (cacheEntries w) (cacheSize w) in
  with_cache c total w.

(** Modelled from the spec: [invalidateMatchingCache] of cacheManager.js is
    not among the sources. It removes the entry stored under exactly this
    request id. *)
Definition invalidateMatchingCache (requestId : string) (o : ValidatedCacheOptions)
    (w : World) : World :=
  with_cache (delete requestId (cacheEntries w))
             (cacheSize w - storedSize requestId (cacheEntries w)) w.

End CacheManager.

(** ** Asynchronous functions as resumptions *)

Inductive Exception :=
| ConfigError
| Error (message : string)
| HostError (name : string).

(** What a suspended interceptor waits for. *)
Inductive Waitable :=
| SessionIdPromise            (* [await getCacheIdResult] *)
| PendingRequest (p : nat)    (* [await pendingRequest] *)
| BlobPromise                 (* [await response.clone().blob()] *)
| ResponseSizePromise.        (* [await getResponseSize(response)] *)

(** The calls an interceptor makes into the host and the cache manager, indexed
    by the type of what the call gives back. *)
Inductive Op : Type -> Type :=
| CallGetCacheId (getCacheId : World -> CacheIdResult) : Op CacheIdResult
| ResetCacheSession (id : string) : Op unit
| IsCurrentSessionId (id : option string) : Op bool
| InvalidateMatchingCache (requestId : string) (o : ValidatedCacheOptions) : Op unit
| PendingGet (requestId : string) : Op (option nat)
| PendingSet (requestId : string) : Op unit
| PendingResolve (requestId : string) : Op unit
| CacheGet (requestId : string) (maxAge maxResponseSize : option Z) : Op (option Response)
| CacheSet (requestId : string) (response : Response) (size : Z) : Op unit
| CacheTruncateTo (budget : Z) : Op unit
| Blob (response : Response) : Op Z.

(** An asynchronous function body: it returns, throws, makes a synchronous
    call and goes on with its result, or is suspended at an [await]. *)
Inductive Task (A : Type) : Type :=
| Ret (a : A)
| Throw (e : Exception)
| Do {X : Type} (op : Op X) (k : X -> Task A)
| Await (c : Waitable) (k : Task A).

Arguments Ret {A} a.
Arguments Throw {A} e.
Arguments Do {A X} op k.
Arguments Await {A} c k.

Fixpoint bind {A B : Type} (t : Task A) (f : A -> Task B) : Task B :=
  match t with
  | Ret a => f a
  | Throw e => Throw e
  | Do op k => Do op (fun x => bind (k x) f)
  | Await c k => Await c (bind k f)
  end.

#[global] Instance Task_ret : MRet Task := @Ret.
#[global] Instance Task_bind : MBind Task := fun A B f t => bind t f.

Definition call {X : Type} (op : Op X) : Task X := Do op Ret.
Definition await (c : Waitable) : Task unit := Await c (Ret tt).


(** The observable steps of a run: each call with what it gave back, and each
    suspension. *)
Inductive Event :=
| EGetCacheId (r : CacheIdResult)
| EResetCacheSession (id : string)
| EIsCurrentSessionId (id : option string) (current : bool)
| EInvalidateMatchingCache (requestId : string)
| EPendingGet (requestId : string) (pending : option nat)
| EPendingSet (requestId : string)
| EPendingResolve (requestId : string)
| ECacheGet (requestId : string) (found : option Response)
| ECacheSet (requestId : string) (response : Response) (size : Z) (createdAt : Z)
| ECacheTruncateTo (budget : Z)
| EBlob
| EAwait (c : Waitable).

Definition handle {X : Type} (op : Op X) (w : World) : X * World * Event :=
  match op in Op X return X * World * Event with
  | CallGetCacheId getCacheId => (getCacheId w, w, EGetCacheId (getCacheId w))
  | ResetCacheSession id => (tt, resetCacheSession id w, EResetCacheSession id)
  | IsCurrentSessionId id =>
    (isCurrentSessionId id w, w, EIsCurrentSessionId id (isCurrentSessionId id w))
  | InvalidateMatchingCache requestId o =>
    (tt, invalidateMatchingCache requestId o w, EInvalidateMatchingCache requestId)
  | PendingGet requestId =>
    (pendingRequestStore_get requestId w, w,
     EPendingGet requestId (pendingRequestStore_get requestId w))
  | PendingSet requestId => (tt, pendingRequestStore_set requestId w, EPendingSet requestId)
  | PendingResolve requestId =>
    (tt, pendingRequestStore_resolve requestId w, EPendingResolve requestId)
  | CacheGet requestId maxAge maxResponseSize =>
    (ajaxCache_get requestId maxAge maxResponseSize w, w,
     ECacheGet requestId (ajaxCache_get requestId maxAge maxResponseSize w))
  | CacheSet requestId response size =>
    (tt, ajaxCache_set requestId response size w, ECacheSet requestId response size (now w))
  | CacheTruncateTo budget => (tt, ajaxCache_truncateTo budget w, ECacheTruncateTo budget)
  | Blob response => (bodySize response, w, EBlob)
  end.

(** How a synchronous span ends. *)
Inductive Outcome (A : Type) : Type :=
| Returned (a : A)
| Thrown (e : Exception)
| Suspended (c : Waitable) (k : Task A).

Arguments Returned {A} a.
Arguments Thrown {A} e.
Arguments Suspended {A} c k.

(** One synchronous span: run the task up to its end or its next [await]. *)
Fixpoint run {A : Type} (t : Task A) (w : World) : Outcome A * World * list Event :=
  match t with
  | Ret a => (Returned a, w, [])
  | Throw e => (Thrown e, w, [])
  | Do op k =>
    let '(x, w1, ev) := handle op w in
    let '(o, w2, tr) := run (k x) w1 in
    (o, w2, ev :: tr)
  | Await c k => (Suspended c k, w, [])
  end.

(** A whole activation: between a suspension and the resumption the rest of
    the program acts on the state; [env] gives that action for each
    suspension in turn, and an activation with no action left stays
    suspended. *)
Fixpoint runs {A : Type} (env : list (World -> World)) (t : Task A) (w : World)
    : Outcome A * World * list Event :=
  match run t w with
  | (Suspended c k, w1, tr) =>
    match env with
    | [] => (Suspended c k, w1, tr)
    | e :: env' =>
      let '(o, w2, tr') := runs env' k (e w1) in
      (o, w2, (tr ++ EAwait c :: tr')%list)
    end
  | r => r
  end.

(** Modelled from the spec: [validateCacheOptions] of cacheManager.js is not
    among the sources. The call throws a ConfigError on invalid options. *)
Definition validateCacheOptions (o : option CacheOptions) : Task unit :=
  if validCacheOptions o then Ret tt else Throw ConfigError.

(** ** The interceptors *)

Section Interceptors.

Variable defaultMethods : list string.
Variable defaultRequestIdFunction : Request -> string.

(** The host's [Number] conversion of a string; [None] is NaN. *)
Variable Number_ : string -> option Z.

(** [Number(response.headers.get(name))]: an absent header is null, and
    [Number(null)] is 0. *)
Definition Number_header (v : option string) : option Z :=
  match v with
  | Some s => Number_ s
  | None => Some 0
  end.

(** [Number(header) || (await response.clone().blob()).size || 0] *)
Definition getResponseSize (response : Response) : Task Z :=
  let contentLength := Number_header (headers_get "Content-Length" (headers response)) in
  if truthy contentLength then Ret (default 0 contentLength)
  else
    size ← call (Blob (clone response));
    await BlobPromise;;
    Ret (if truthy (Some size) then size else 0).

(** The object [{ useCache: false }]. *)
Definition useCacheFalse : CacheOptions :=
  {| useCache := Some false; requestIdFunction := None; methods := None;
     contentTypes := None; maxAge := None; maxResponseSize := None;
     maxCacheSize := None |}.

(** The request once the interceptor has stored the resolved options and the
    session id in it. *)
Definition attach (request : CacheRequest) (o : ValidatedCacheOptions) (id : string)
    : CacheRequest :=
  {| req := req request;
     cacheOptions := Some (asCacheOptions o);
     cacheSessionId := Some id |}.

Definition createCacheRequestInterceptor
    (getCacheId : World -> CacheIdResult) (globalCacheOptions : CacheOptions)
    (request : CacheRequest) : Task (CacheRequest + CacheResponse) :=
  validateCacheOptions (cacheOptions request);;
  getCacheIdResult ← call (CallGetCacheId getCacheId);
  sessionId ← match getCacheIdResult with
                   | Deferred id => await SessionIdPromise;; Ret id
                   | Direct id => Ret id
                   end;
  call (ResetCacheSession sessionId);;
  let resolved :=
    extendCacheOptions defaultMethods defaultRequestIdFunction
      (spread globalCacheOptions (cacheOptions request)) in
  let request := attach request resolved sessionId in
  if negb (v_useCache resolved) then Ret (inl request)
  else
    let requestId := v_requestIdFunction resolved request in
    if negb (isMethodSupported (v_methods resolved) (method request)) then
      call (InvalidateMatchingCache requestId resolved);;
      Ret (inl request)
    else
      pendingRequest ← call (PendingGet requestId);
      stale ← match pendingRequest with
              | Some p =>
                await (PendingRequest p);;
                current ← call (IsCurrentSessionId (cacheSessionId request));
                Ret (negb current)
              | None => Ret false
              end;
      if (stale : bool) then Ret (inl request)
      else
        cachedResponse ← call (CacheGet requestId (v_maxAge resolved)
                                        (v_maxResponseSize resolved));
        match cachedResponse with
        | Some cached =>
          if isResponseContentTypeSupported cached (v_contentTypes resolved) then
            let request :=
              {| req := req request;
                 cacheOptions := Some (default useCacheFalse (cacheOptions request));
                 cacheSessionId := cacheSessionId request |} in
            Ret (inr {| res := clone cached; request := Some request; fromCache := true |})
          else
            call (PendingSet requestId);;
            Ret (inl request)
        | None =>
          call (PendingSet requestId);;
          Ret (inl request)
        end.

(** The right-hand side of [const responseSize = ...]:
    [maxCacheSize || maxResponseSize ? await getResponseSize(response) : 0] *)
Definition responseSizeOf (o : ValidatedCacheOptions) (response : Response) : Task Z :=
  if truthy (v_maxCacheSize o) || truthy (v_maxResponseSize o)
  then size ← getResponseSize response;
       await ResponseSizePromise;;
       Ret size
  else Ret 0.

Definition createCacheResponseInterceptor
    (globalCacheOptions : CacheOptions) (response : CacheResponse) : Task CacheResponse :=
  match request response with
  | None => Throw (Error "Missing request in response")
  | Some request =>
    let o := extendCacheOptions defaultMethods defaultRequestIdFunction
               (spread globalCacheOptions (cacheOptions request)) in
    if negb (fromCache response) && isMethodSupported (v_methods o) (method request) then
      let requestId := v_requestIdFunction o request in
      responseSize ← responseSizeOf o response;
      current ← call (IsCurrentSessionId (cacheSessionId request));
      (if current
          && isResponseContentTypeSupported response (v_contentTypes o)
          && isResponseSizeSupported (Some responseSize) (v_maxResponseSize o)
       then
         call (CacheSet requestId (clone response) responseSize);;
         if truthy (v_maxCacheSize o)
         then call (CacheTruncateTo (default 0 (v_maxCacheSize o)))
         else Ret tt
       else Ret tt);;
      call (PendingResolve requestId);;
      Ret response
    else Ret response
  end.






(** [createCacheInterceptors]: the global options are validated once, then
    the two interceptors are built. *)
Definition createCacheInterceptors
    (getCacheId : World -> CacheIdResult) (globalCacheOptions : CacheOptions)
    : Exception +
      ((CacheRequest -> Task (CacheRequest + CacheResponse)) *
       (CacheResponse -> Task CacheResponse)) :=
  if validCacheOptions (Some globalCacheOptions)
  then inr (createCacheRequestInterceptor getCacheId globalCacheOptions,
            createCacheResponseInterceptor globalCacheOptions)
  else inl ConfigError.

End Interceptors.

(** ** Reading a run *)

Definition isCacheSet (e : Event) : bool :=
  match e with ECacheSet _ _ _ _ => true | _ => false end.

Definition isCacheGet (e : Event) : bool :=
  match e with ECacheGet _ _ => true | _ => false end.

Definition isPendingSet (e : Event) : bool :=
  match e with EPendingSet _ => true | _ => false end.




Definition isPendingGet (e : Event) : bool :=
  match e with EPendingGet _ _ => true | _ => false end.

Definition isResetCacheSession (e : Event) : bool :=
  match e with EResetCacheSession _ => true | _ => false end.

Definition isInvalidate (e : Event) : bool :=
  match e with EInvalidateMatchingCache _ => true | _ => false end.

Definition isGetCacheId (e : Event) : bool :=
  match e with EGetCacheId _ => true | _ => false end.


(** The calls of the request phase: the session, the lookups, the pending
    mark and the invalidation. *)
Definition admissionCall (e : Event) : bool :=
  isGetCacheId e || isResetCacheSession e || isInvalidate e
  || isPendingGet e || isPendingSet e || isCacheGet e.

(** A string with no upper-case ASCII letter. *)
Definition isLowerCase (s : string) : bool := String.eqb s (toLowerCase s).

(** The text the content type test looks into. *)
Definition contentTypeText (response : Response) : string :=
  String_ (headers_get "Content-Type" (headers response)).

(** The string a [getCacheId()] result stands for, once awaited if need be. *)
Definition cacheId (r : CacheIdResult) : string :=
  match r with
  | Direct id => id
  | Deferred id => id
  end.

(** The state an activation finds when it runs again after its first [n]
    suspensions, when the synchronous spans in between leave the state as it
    is. *)
Definition resumed (n : nat) (env : list (World -> World)) (w : World) : World :=
  fold_left (fun w e => e w) (firstn n env) w.

(** The number of suspensions before the session id is known. *)
Definition sessionSuspensions (r : CacheIdResult) : nat :=
  match r with
  | Direct _ => 0%nat
  | Deferred _ => 1%nat
  end.

(** The events of an admission pass up to the session reset. *)
Definition sessionEvents (r : CacheIdResult) : list Event :=
  match r with
  | Direct id => [EGetCacheId r; EResetCacheSession id]
  | Deferred id => [EGetCacheId r; EAwait SessionIdPromise; EResetCacheSession id]
  end.

Section Reading.

Variable defaultMethods : list string.
Variable defaultRequestIdFunction : Request -> string.
Variable Number_ : string -> option Z.

(** The options both interceptors resolve for a request. *)
Definition resolved (globalCacheOptions : CacheOptions) (request : CacheRequest)
    : ValidatedCacheOptions :=
  extendCacheOptions defaultMethods defaultRequestIdFunction
    (spread globalCacheOptions (cacheOptions request)).

Definition contentLength (response : Response) : option Z :=
  Number_header Number_ (headers_get "Content-Length" (headers response)).

Definition sizeConfigured (o : ValidatedCacheOptions) : bool :=
  truthy (v_maxCacheSize o) || truthy (v_maxResponseSize o).

(** The value [responseSizeOf] ends with. *)
Definition measuredSize (o : ValidatedCacheOptions) (response : Response) : Z :=
  if sizeConfigured o then
    if truthy (contentLength response) then default 0 (contentLength response)
    else bodySize response
  else 0.

(** The number of suspensions [responseSizeOf] goes through. *)
Definition sizeSuspensions (o : ValidatedCacheOptions) (response : Response) : nat :=
  if sizeConfigured o then
    if truthy (contentLength response) then 1%nat else 2%nat
  else 0%nat.

(** The events [responseSizeOf] leaves. *)
Definition sizeEvents (o : ValidatedCacheOptions) (response : Response) : list Event :=
  if sizeConfigured o then
    if truthy (contentLength response) then [EAwait ResponseSizePromise]
    else [EBlob; EAwait BlobPromise; EAwait ResponseSizePromise]
  else [].

(** A request the interceptor would cache: valid options, [useCache] on, a
    cacheable method. *)
Definition cacheable (globalCacheOptions : CacheOptions) (request : CacheRequest) : Prop :=
  validCacheOptions (cacheOptions request) = true /\
  v_useCache (resolved globalCacheOptions request) = true /\
  isMethodSupported (v_methods (resolved globalCacheOptions request)) (method request) = true.

End Reading.

(** ** Two activations under the cooperative scheduler *)

(** An activation of the request interceptor: not yet invoked, suspended,
    or finished; [Dispatched] is the hand-over of the request to the network,
    [Served] the answer from the cache. *)
Inductive Activation :=
| Fresh (request : CacheRequest)
| Waiting (c : Waitable) (k : Task (CacheRequest + CacheResponse))
| Dispatched (request : CacheRequest)
| Served (response : CacheResponse)
| Failed (e : Exception).

Definition settle (o : Outcome (CacheRequest + CacheResponse)) : Activation :=
  match o with
  | Returned (inl request) => Dispatched request
  | Returned (inr response) => Served response
  | Thrown e => Failed e
  | Suspended c k => Waiting c k
  end.

(** A suspended activation may run again once what it waits for is there: a
    pending request once it was resolved, a promise of the host at any time. *)
Definition ready (c : Waitable) (w : World) : bool :=
  match c with
  | PendingRequest p => bool_decide (p ∈ settled w)
  | _ => true
  end.

Definition dispatched (a : Activation) : nat :=
  match a with
  | Dispatched _ => 1%nat
  | _ => 0%nat
  end.

(** How many spans an activation may still need before it has looked up the
    pending registry. *)
Definition rank (a : Activation) : nat :=
  match a with
  | Fresh _ => 2%nat
  | Waiting SessionIdPromise _ => 1%nat
  | _ => 0%nat
  end.

(** Waitables are handed out in increasing order: a settled one was handed out
    before. *)
Definition wellFormed (w : World) : Prop :=
  forall p, p ∈ settled w -> (p < nextWaitable w)%nat.

Section Scheduler.

Variable defaultMethods : list string.
Variable defaultRequestIdFunction : Request -> string.
Variable getCacheId : World -> CacheIdResult.
Variable globalCacheOptions : CacheOptions.

(** One synchronous span of an activation, when it can run. *)
Definition advance (a : Activation) (w : World) : option (Activation * World) :=
  match a with
  | Fresh request =>
    let '(o, w', _) :=
      run (createCacheRequestInterceptor defaultMethods defaultRequestIdFunction getCacheId
             globalCacheOptions request) w in
    Some (settle o, w')
  | Waiting c k =>
    if ready c w then let '(o, w', _) := run k w in Some (settle o, w') else None
  | _ => None
  end.

(** What the rest of the program may do to the state while the leader for
    [requestId] is unresolved: anything that leaves the pending entry and the
    cache entry of that id alone and does not settle the leader. *)
Definition bystander (requestId : string) (w w' : World) : Prop :=
  pendingRequests w' !! requestId = pendingRequests w !! requestId /\
  cacheEntries w' !! requestId = cacheEntries w !! requestId /\
  (forall p, pendingRequests w !! requestId = Some p -> p ∈ settled w' -> p ∈ settled w) /\
  (wellFormed w -> wellFormed w').

(** The scheduler runs one span at a time: of the first activation, of the
    second, or of the rest of the program. *)
Inductive step (requestId : string) :
    World * Activation * Activation -> World * Activation * Activation -> Prop :=
| step_first w a1 a2 a1' w' :
    advance a1 w = Some (a1', w') -> step requestId (w, a1, a2) (w', a1', a2)
| step_second w a1 a2 a2' w' :
    advance a2 w = Some (a2', w') -> step requestId (w, a1, a2) (w', a1, a2')
| step_other w a1 a2 w' :
    bystander requestId w w' -> step requestId (w, a1, a2) (w', a1, a2).

(** A task that does the admission of a request id from the pending lookup
    on: with no pending entry and no cache entry it claims leadership and hands
    the request on; with a pending entry it is suspended on it. *)
Definition entersAt (requestId : string) (t : Task (CacheRequest + CacheResponse))
    (w : World) : Prop :=
  exists id,
    match pendingRequests w !! requestId with
    | None =>
      cacheEntries w !! requestId = None ->
      exists request' tr,
        run t w = (Returned (inl request'),
                   pendingRequestStore_set requestId (resetCacheSession id w), tr)
    | Some p =>
      exists k tr,
        run t w = (Suspended (PendingRequest p) k, resetCacheSession id w, tr)
    end.

Definition enters (requestId : string) (t : Task (CacheRequest + CacheResponse)) : Prop :=
  forall w, entersAt requestId t w.

(** An activation that has not yet looked up the pending registry. *)
Definition unentered (requestId : string) (request : CacheRequest) (a : Activation) : Prop :=
  a = Fresh request \/
  exists k, a = Waiting SessionIdPromise k /\ enters requestId k.

Definition follower (p : nat) (a : Activation) : Prop :=
  exists k, a = Waiting (PendingRequest p) k.

Definition leads (a : Activation) : Prop :=
  exists request, a = Dispatched request.

(** The invariant of the two activations for one request id. *)
Definition deduplicated (requestId : string) (r1 r2 : CacheRequest)
    (s : World * Activation * Activation) : Prop :=
  let '(w, a1, a2) := s in
  wellFormed w /\
  cacheEntries w !! requestId = None /\
  ((pendingRequests w !! requestId = None /\
    unentered requestId r1 a1 /\ unentered requestId r2 a2) \/
   (exists p,
      pendingRequests w !! requestId = Some p /\ (p ∉ settled w) /\
      ((leads a1 /\ (unentered requestId r2 a2 \/ follower p a2)) \/
       (leads a2 /\ (unentered requestId r1 a1 \/ follower p a1))))).

End Scheduler.

(** ** Sample data *)

Module Sample.

Fixpoint digits (s : string) (acc : Z) : option Z :=
  match s with
  | EmptyString => Some acc
  | String c s' =>
    let n := nat_of_ascii c in
    if (Nat.leb 48 n && Nat.leb n 57)%bool
    then digits s' (10 * acc + Z.of_nat (n - 48))
    else None
  end.

(** [Number] on strings of decimal digits; anything else is NaN here. *)
Definition decimal (s : string) : option Z := digits s 0.

Definition noOptions : CacheOptions :=
  {| useCache := None; requestIdFunction := None; methods := None;
     contentTypes := None; maxAge := None; maxResponseSize := None;
     maxCacheSize := None |}.

Definition maxResponseSize5 : CacheOptions :=
  {| useCache := None; requestIdFunction := None; methods := None;
     contentTypes := None; maxAge := None; maxResponseSize := Some 5;
     maxCacheSize := None |}.

Definition emptyWorld : World :=
  {| now := 0; currentSessionId := None; pendingRequests := ∅; settled := ∅;
     nextWaitable := 0%nat; cacheEntries := ∅; cacheSize := 0 |}.

Definition bare (m u : string) (o : option CacheOptions) : CacheRequest :=
  {| req := {| method := m; url := u |}; cacheOptions := o; cacheSessionId := None |}.

Definition getA : CacheRequest := bare "GET" "/a" None.
Definition postA : CacheRequest := bare "POST" "/a" None.
Definition getA_noCache : CacheRequest := bare "GET" "/a" (Some useCacheFalse).

Definition session1 : World -> CacheIdResult := fun _ => Direct "s1".
Definition session1_deferred : World -> CacheIdResult := fun _ => Deferred "s1".

Definition requestInterceptor := createCacheRequestInterceptor ["get"] url.
Definition responseInterceptor := createCacheResponseInterceptor ["get"] url decimal.

Definition html (length : string) (size : Z) : Response :=
  {| headers := [("content-type", "text/html"); ("content-length", length)];
     bodySize := size |}.

Definition htmlNoLength (size : Z) : Response :=
  {| headers := [("content-type", "text/html")]; bodySize := size |}.

(** The request as the request interceptor hands it on in session s1. *)
Definition handedOn (r : CacheRequest) : CacheRequest :=
  attach r (resolved ["get"] url noOptions r) "s1".

Definition fromNetwork (body : Response) (r : option CacheRequest) : CacheResponse :=
  {| res := body; request := r; fromCache := false |}.

Definition hit (body : Response) (r : CacheRequest) : CacheResponse :=
  {| res := clone body; request := Some r; fromCache := true |}.

(** The state once [getA] became leader in session s1. *)
Definition leaderWorld : World :=
  pendingRequestStore_set "/a" (resetCacheSession "s1" emptyWorld).

(** The same with the response of the leader stored at time 0. *)
Definition storedWorld : World :=
  pendingRequestStore_resolve "/a"
    (ajaxCache_set "/a" (html "12" 12) 0 leaderWorld).

Definition changeSession (id : string) : World -> World := resetCacheSession id.


(** Options that [validateCacheOptions] rejects. *)
Definition negativeAge : CacheOptions :=
  {| useCache := None; requestIdFunction := None; methods := None;
     contentTypes := None; maxAge := Some (-1); maxResponseSize := None;
     maxCacheSize := None |}.

Definition getA_invalid : CacheRequest := bare "GET" "/a" (Some negativeAge).

(** A response with no header at all. *)
Definition noHeaders (size : Z) : Response := {| headers := []; bodySize := size |}.

(** The response of the network to [getA] as handed on in session s1. *)
Definition responseA : CacheResponse := fromNetwork (html "12" 12) (Some (handedOn getA)).

(** What the response interceptor does to the state with [responseA]. *)
Definition captureA (w : World) : World :=
  snd (fst (runs [] (responseInterceptor noOptions responseA) w)).

(** A response served from the cache for [getA]. *)
Definition hitA : CacheResponse := hit (html "12" 12) (handedOn getA).

(** The two activations of [getA] after each ran once, the first one first. *)
Definition bothStarted : World * Activation * Activation :=
  match advance ["get"] url session1 noOptions (Fresh getA) emptyWorld with
  | Some (a1, w1) =>
    match advance ["get"] url session1 noOptions (Fresh getA) w1 with
    | Some (a2, w2) => (w2, a1, a2)
    | None => (w1, a1, Fresh getA)
    end
  | None => (emptyWorld, Fresh getA, Fresh getA)
  end.

End Sample.

(** * Properties *)

Lemma runs_nil {A : Type} (t : Task A) (w : World) : runs [] t w = run t w.
Proof. unfold runs. destruct (run t w) as [[[a|e|c k] w1] tr]; reflexivity. Qed.

Lemma runs_returned {A : Type} env (t : Task A) w a w' tr :
  run t w = (Returned a, w', tr) -> runs env t w = (Returned a, w', tr).
Proof. intros H. destruct env; simpl; rewrite H; reflexivity. Qed.

Lemma runs_thrown {A : Type} env (t : Task A) w e w' tr :
  run t w = (Thrown e, w', tr) -> runs env t w = (Thrown e, w', tr).
Proof. intros H. destruct env; simpl; rewrite H; reflexivity. Qed.

Lemma runs_suspended {A : Type} e env (t : Task A) w c k w1 tr :
  run t w = (Suspended c k, w1, tr) ->
  runs (e :: env) t w =
  let '(o, w2, tr') := runs env k (e w1) in (o, w2, (tr ++ EAwait c :: tr')%list).
Proof. intros H. simpl. rewrite H. reflexivity. Qed.

Lemma runs_returned_app {A : Type} env1 env2 (t : Task A) w a w' tr :
  runs env1 t w = (Returned a, w', tr) ->
  runs (env1 ++ env2) t w = (Returned a, w', tr).
Proof.
  revert t w tr. induction env1 as [|e env1 IH]; intros t w tr H.
  - rewrite runs_nil in H. now apply runs_returned.
  - simpl in *. destruct (run t w) as [[[a0|e0|c k] w1] tr1]; try exact H.
    destruct (runs env1 k (e w1)) as [[o2 w2] tr2] eqn:E.
    injection H as -> -> <-.
    now rewrite (IH _ _ _ E).
Qed.

(** Case analysis on the conditions a run branches on. *)
Ltac branches :=
  repeat match goal with
         | |- context [if ?b then _ else _] => destruct b eqn:?
         end;
  try reflexivity.

(** Unfold a run step by step, splitting on each condition it meets. *)
Ltac explore :=
  repeat (cbn -[isCurrentSessionId ajaxCache_get ajaxCache_set ajaxCache_truncateTo
                pendingRequestStore_get pendingRequestStore_set pendingRequestStore_resolve
                invalidateMatchingCache resetCacheSession
                truthy isResponseContentTypeSupported isResponseSizeSupported
                isMethodSupported validCacheOptions];
          try match goal with
              | |- context [if ?b then _ else _] => destruct b eqn:?
              end).

Ltac prove_Forall :=
  repeat (apply List.Forall_nil || (apply List.Forall_cons; [reflexivity|])).

Section Capture.

Variable defaultMethods : list string.
Variable defaultRequestIdFunction : Request -> string.
Variable Number_ : string -> option Z.

Local Abbreviation resolved := (resolved defaultMethods defaultRequestIdFunction).
Local Abbreviation responseInterceptor :=
  (createCacheResponseInterceptor defaultMethods defaultRequestIdFunction Number_).

Lemma capture_runs g (response : CacheResponse) r e1 e2 env w :
  request response = Some r ->
  fromCache response = false ->
  isMethodSupported (v_methods (resolved g r)) (method r) = true ->
  let o := resolved g r in
  let requestId := v_requestIdFunction o r in
  let wc := resumed (sizeSuspensions Number_ o response) (e1 :: e2 :: env) w in
  let size := measuredSize Number_ o response in
  let current := isCurrentSessionId (cacheSessionId r) wc in
  let eligible := current && isResponseContentTypeSupported response (v_contentTypes o)
                  && isResponseSizeSupported (Some size) (v_maxResponseSize o) in
  runs (e1 :: e2 :: env) (responseInterceptor g response) w =
  (Returned response,
   pendingRequestStore_resolve requestId
     (if eligible then
        if truthy (v_maxCacheSize o)
        then ajaxCache_truncateTo (default 0 (v_maxCacheSize o))
               (ajaxCache_set requestId (clone response) size wc)
        else ajaxCache_set requestId (clone response) size wc
      else wc),
   (sizeEvents Number_ o response ++
    EIsCurrentSessionId (cacheSessionId r) current ::
    (if eligible then
       ECacheSet requestId (clone response) size (now wc) ::
       (if truthy (v_maxCacheSize o)
        then [ECacheTruncateTo (default 0 (v_maxCacheSize o))] else [])
     else []) ++ [EPendingResolve requestId])%list).
Proof.
  intros Hr Hf Hm. cbv zeta.
  change (e1 :: e2 :: env) with ([e1; e2] ++ env)%list at 1.
  apply runs_returned_app.
  unfold createCacheResponseInterceptor, resolved in *. rewrite Hr, Hf, Hm.
  set (o := extendCacheOptions defaultMethods defaultRequestIdFunction
            (spread g (cacheOptions r))) in *.
  unfold responseSizeOf, getResponseSize, sizeEvents, measuredSize, sizeSuspensions,
    sizeConfigured, contentLength, resumed.
  destruct (truthy (v_maxCacheSize o) || truthy (v_maxResponseSize o)) eqn:Hc;
    [ destruct (truthy (Number_header Number_
                (headers_get "Content-Length" (headers response)))) eqn:Hl | ];
    cbn -[isCurrentSessionId ajaxCache_set ajaxCache_truncateTo pendingRequestStore_resolve
          truthy isResponseContentTypeSupported isResponseSizeSupported o].
  - branches.
  - change (firstn 0 env) with (@nil (World -> World)). cbn [fold_left].
    replace (if truthy (Some (bodySize response)) then bodySize response else 0)
      with (bodySize response)
      by (unfold truthy; destruct (Z.eqb_spec (bodySize response) 0) as [->|]; reflexivity).
    branches.
  - branches.
Qed.

Lemma capture_skips g (response : CacheResponse) r env w :
  request response = Some r ->
  fromCache response = true \/
  isMethodSupported (v_methods (resolved g r)) (method r) = false ->
  runs env (responseInterceptor g response) w = (Returned response, w, []).
Proof.
  intros Hr H. apply runs_returned.
  unfold createCacheResponseInterceptor, resolved in *. rewrite Hr.
  destruct H as [-> | ->]; [reflexivity|].
  now rewrite andb_false_r.
Qed.

Lemma capture_missing_request g (response : CacheResponse) env w :
  request response = None ->
  runs env (responseInterceptor g response) w =
  (Thrown (Error "Missing request in response"), w, []).
Proof.
  intros Hr. apply runs_thrown.
  unfold createCacheResponseInterceptor. now rewrite Hr.
Qed.

(** With less than two resumptions the response interceptor may still be
    suspended, and it has not thrown. *)
Lemma capture_short g (response : CacheResponse) r env w :
  request response = Some r ->
  (length env < 2)%nat ->
  let '(o, _, tr) := runs env (responseInterceptor g response) w in
  (forall e, o <> Thrown e) /\ Forall (fun e => isPendingSet e = false) tr.
Proof.
  intros Hr Hlen.
  unfold createCacheResponseInterceptor. rewrite Hr.
  unfold responseSizeOf, getResponseSize.
  destruct env as [|e1 [|e2 env]]; [| |simpl in Hlen; lia];
    explore; (split; [congruence | prove_Forall]).
Qed.


Lemma responseSizeOf_runs o (response : Response) e1 e2 env w :
  runs (e1 :: e2 :: env) (responseSizeOf Number_ o response) w =
  (Returned (measuredSize Number_ o response),
   resumed (sizeSuspensions Number_ o response) (e1 :: e2 :: env) w,
   sizeEvents Number_ o response).
Proof.
  change (e1 :: e2 :: env) with ([e1; e2] ++ env)%list at 1.
  apply runs_returned_app.
  unfold responseSizeOf, getResponseSize, measuredSize, sizeSuspensions, sizeEvents,
    sizeConfigured, contentLength, resumed.
  destruct (truthy (v_maxCacheSize o) || truthy (v_maxResponseSize o));
    [destruct (truthy (Number_header Number_
                 (headers_get "Content-Length" (headers response))))|];
    try reflexivity.
  cbn. change (firstn 0 env) with (@nil (World -> World)). cbn.
  destruct (Z.eqb_spec (bodySize response) 0) as [->|]; reflexivity.
Qed.



(** C1, as amended: a response with [fromCache] set that carries its request
    goes through the response interceptor with no call at all, neither
    [ajaxCache.set] nor [pendingRequestStore.resolve]; the state is left as
    it was and the response itself is returned. *)
Theorem cached_response_skips_capture g (response : CacheResponse) r env w :
  request response = Some r ->
  fromCache response = true ->
  runs env (responseInterceptor g response) w = (Returned response, w, []).
Proof.
  intros Hr Hf. apply (capture_skips g response r); auto.
Qed.






(** C7: the size is computed only when [maxCacheSize] or [maxResponseSize] is
    configured (defined and not zero): otherwise the size is 0 with no call and
    no suspension. When computed, a Content-Length header that reads as a
    number other than zero gives the size, the body not being read; an absent
    header makes the interceptor read the body, whose length is the size. *)
Theorem response_size_only_when_configured (o : ValidatedCacheOptions) (response : Response) :
  (truthy (v_maxCacheSize o) || truthy (v_maxResponseSize o) = false ->
   responseSizeOf Number_ o response = Ret 0) /\
  (truthy (v_maxCacheSize o) || truthy (v_maxResponseSize o) = true ->
   (forall n, Number_header Number_ (headers_get "Content-Length" (headers response)) = Some n ->
              n <> 0 ->
      forall e env w,
        runs (e :: env) (responseSizeOf Number_ o response) w =
        (Returned n, e w, [EAwait ResponseSizePromise])) /\
   (headers_get "Content-Length" (headers response) = None ->
      forall e1 e2 env w,
        runs (e1 :: e2 :: env) (responseSizeOf Number_ o response) w =
        (Returned (bodySize response), e2 (e1 w),
         [EBlob; EAwait BlobPromise; EAwait ResponseSizePromise]))).
Proof.
  unfold responseSizeOf, getResponseSize.
  split; [intros ->; reflexivity|]. intros ->. split.
  - intros n Hn Hnz e env w. rewrite Hn.
    change (e :: env) with ([e] ++ env)%list. apply runs_returned_app.
    unfold truthy. destruct (Z.eqb_spec n 0); [contradiction|]. reflexivity.
  - intros Hnone e1 e2 env w. rewrite Hnone.
    change (e1 :: e2 :: env) with ([e1; e2] ++ env)%list. apply runs_returned_app.
    cbn. destruct (Z.eqb_spec (bodySize response) 0) as [->|]; reflexivity.
Qed.


End Capture.

Lemma runs_thrown_app {A : Type} env1 env2 (t : Task A) w e w' tr :
  runs env1 t w = (Thrown e, w', tr) ->
  runs (env1 ++ env2) t w = (Thrown e, w', tr).
Proof.
  revert t w tr. induction env1 as [|e0 env1 IH]; intros t w tr H.
  - rewrite runs_nil in H. now apply runs_thrown.
  - simpl in *. destruct (run t w) as [[[a0|e1|c k] w1] tr1]; try exact H.
    destruct (runs env1 k (e0 w1)) as [[o2 w2] tr2] eqn:E.
    injection H as -> -> <-.
    now rewrite (IH _ _ _ E).
Qed.



Ltac explore_admission :=
  repeat (cbn -[isCurrentSessionId ajaxCache_get ajaxCache_set ajaxCache_truncateTo
                pendingRequestStore_get pendingRequestStore_set pendingRequestStore_resolve
                invalidateMatchingCache resetCacheSession
                truthy isResponseContentTypeSupported isResponseSizeSupported
                isMethodSupported validCacheOptions extendCacheOptions spread];
          repeat match goal with
                 | H : ?x = true |- context [?x] => rewrite H
                 | H : ?x = false |- context [?x] => rewrite H
                 end;
          try match goal with
              | |- context [validCacheOptions ?x] => destruct (validCacheOptions x) eqn:?
              | |- context [match ?g ?w with Direct _ => _ | Deferred _ => _ end] =>
                destruct (g w) eqn:?
              | |- context [if ?b then _ else _] => destruct b eqn:?
              | |- context [match pendingRequestStore_get ?k ?w with _ => _ end] =>
                destruct (pendingRequestStore_get k w) eqn:?
              | |- context [match ajaxCache_get ?k ?a ?b ?w with _ => _ end] =>
                destruct (ajaxCache_get k a b w) eqn:?
              end).

Ltac find_event := repeat first [left; reflexivity | right].

Section Admission.

Variable defaultMethods : list string.
Variable defaultRequestIdFunction : Request -> string.
Variable getCacheId : World -> CacheIdResult.
Variable globalCacheOptions : CacheOptions.

Local Abbreviation options := (resolved defaultMethods defaultRequestIdFunction globalCacheOptions).
Local Abbreviation requestInterceptor :=
  (createCacheRequestInterceptor defaultMethods defaultRequestIdFunction getCacheId
     globalCacheOptions).

(** The request interceptor is suspended twice at most. *)
Lemma admission_finishes request e1 e2 w :
  match fst (fst (runs [e1; e2] (requestInterceptor request) w)) with
  | Suspended _ _ => False
  | _ => True
  end.
Proof.
  unfold createCacheRequestInterceptor, validateCacheOptions.
  explore_admission; exact I.
Qed.

Lemma admission_env request env w :
  runs env (requestInterceptor request) w =
  runs (firstn 2 env) (requestInterceptor request) w.
Proof.
  destruct env as [|e1 [|e2 env]]; try reflexivity.
  change (firstn 2 (e1 :: e2 :: env)) with [e1; e2].
  pose proof (admission_finishes request e1 e2 w) as H.
  destruct (runs [e1; e2] (requestInterceptor request) w) as [[[a|e|c k] w'] tr] eqn:E;
    simpl in H; [| |contradiction];
    change (e1 :: e2 :: env) with ([e1; e2] ++ env)%list.
  - now apply runs_returned_app.
  - now apply runs_thrown_app.
Qed.

(** C6: an admission pass that got past validation with [useCache] true and a
    method outside [methods] calls [invalidateMatchingCache] for its request
    id, which leaves no entry under that id, and hands the request on (with
    the resolved options and the session id stored in it); it does not call
    [pendingRequestStore.set], and the pending registry is as it was. *)
Theorem uncacheable_method_invalidates request e env w :
  validCacheOptions (cacheOptions request) = true ->
  v_useCache (options request) = true ->
  isMethodSupported (v_methods (options request)) (method request) = false ->
  let o := options request in
  let request' := attach request o (cacheId (getCacheId w)) in
  let requestId := v_requestIdFunction o request' in
  let '(outcome, w', tr) := runs (e :: env) (requestInterceptor request) w in
  outcome = Returned (inl request') /\
  In (EInvalidateMatchingCache requestId) tr /\
  cacheEntries w' !! requestId = None /\
  Forall (fun ev => isPendingSet ev = false) tr /\
  pendingRequests w' =
  pendingRequests (resumed (sessionSuspensions (getCacheId w)) (e :: env) w).
Proof.
  intros Hv Hu Hm. cbv zeta.
  rewrite admission_env. unfold resolved in *.
  unfold createCacheRequestInterceptor, validateCacheOptions, resumed.
  rewrite Hv.
  destruct env as [|e2 env];
    [change (firstn 2 [e]) with [e] | change (firstn 2 (e :: e2 :: env)) with [e; e2]];
    explore_admission.
  all: split; [reflexivity|].
  all: split; [find_event|].
  all: split; [unfold invalidateMatchingCache; cbn; apply lookup_delete_eq|].
  all: split; [prove_Forall|reflexivity].
Qed.


(** C5: an admission pass in which the cache store lookup gives an entry
    whose content type passes the whitelist returns a clone of that entry
    with [fromCache] set and the request attached; the lookup is the one for
    the request id, and [pendingRequestStore.set] is never called, so the
    request is not handed on to the network. *)
Theorem cache_hit_is_served request env w :
  let o := options request in
  let request' := attach request o (cacheId (getCacheId w)) in
  let '(outcome, _, tr) := runs env (requestInterceptor request) w in
  forall id cached,
    In (ECacheGet id (Some cached)) tr ->
    isResponseContentTypeSupported cached (v_contentTypes o) = true ->
    id = v_requestIdFunction o request' /\
    outcome = Returned (inr {| res := clone cached; request := Some request';
                               fromCache := true |}) /\
    Forall (fun ev => isPendingSet ev = false) tr.
Proof.
  cbv zeta. rewrite admission_env. unfold resolved.
  unfold createCacheRequestInterceptor, validateCacheOptions.
  destruct env as [|e1 [|e2 env]];
    [change (firstn 2 []) with (@nil (World -> World))
    |change (firstn 2 [e1]) with [e1]
    |change (firstn 2 (e1 :: e2 :: env)) with [e1; e2]];
    explore_admission.
  all: intros id' cached Hin Hct.
  all: repeat match goal with
              | H : _ \/ _ |- _ => destruct H as [H|H]
              end; try discriminate; try contradiction.
  all: match goal with
       | H : ECacheGet _ _ = ECacheGet _ _ |- _ => injection H as <- <-
       end.
  all: try congruence.
  all: split; [reflexivity|split; [reflexivity|prove_Forall]].
Qed.


(** C4: an admission pass whose pending-registry lookup finds a leader is
    suspended on the leader's waitable right after the lookup, before any
    cache read. Once it runs again it asks whether the session id stored in
    the request is still the current one; when it is not, the request is
    handed on (with the resolved options and the session id stored in it) and
    [ajaxCache.get] is never called. *)
Theorem follower_waits_for_leader request env w :
  let o := options request in
  let sessionId := cacheId (getCacheId w) in
  let request' := attach request o sessionId in
  let requestId := v_requestIdFunction o request' in
  let '(outcome, _, tr) := runs env (requestInterceptor request) w in
  forall p,
    In (EPendingGet requestId (Some p)) tr ->
    ((exists k, outcome = Suspended (PendingRequest p) k /\
                tr = (sessionEvents (getCacheId w) ++ [EPendingGet requestId (Some p)])%list) \/
     (exists current post,
        tr = (sessionEvents (getCacheId w) ++
              [EPendingGet requestId (Some p); EAwait (PendingRequest p);
               EIsCurrentSessionId (Some sessionId) current] ++ post)%list)) /\
    (In (EIsCurrentSessionId (Some sessionId) false) tr ->
     outcome = Returned (inl request') /\
     Forall (fun ev => isCacheGet ev = false) tr).
Proof.
  cbv zeta. rewrite admission_env. unfold resolved.
  unfold createCacheRequestInterceptor, validateCacheOptions.
  destruct env as [|e1 [|e2 env]];
    [change (firstn 2 []) with (@nil (World -> World))
    |change (firstn 2 [e1]) with [e1]
    |change (firstn 2 (e1 :: e2 :: env)) with [e1; e2]];
    explore_admission.
  all: intros p Hin.
  all: repeat match goal with
              | H : _ \/ _ |- _ => destruct H as [H|H]
              end; try discriminate; try contradiction.
  all: match goal with
       | H : EPendingGet _ _ = EPendingGet _ _ |- _ => inversion H; subst; clear H
       end.
  all: split.
  all: try (left; eexists; split; reflexivity).
  all: try (right; eexists _, _; reflexivity).
  all: intros Hst.
  all: repeat match goal with
              | H : _ \/ _ |- _ => destruct H as [H|H]
              end; try discriminate; try contradiction.
  all: try (injection Hst as Hst; rewrite Hst in *; discriminate).
  all: split; [reflexivity|prove_Forall].
Qed.


Lemma admission_without_cache request env w :
  v_useCache (options request) = false ->
  let '(outcome, w', tr) := runs env (requestInterceptor request) w in
  Forall (fun ev => isCacheSet ev = false /\ isPendingSet ev = false) tr /\
  forall x, outcome = Returned x ->
    x = inl (attach request (options request) (cacheId (getCacheId w))) /\
    w' = resetCacheSession (cacheId (getCacheId w))
           (resumed (sessionSuspensions (getCacheId w)) env w).
Proof.
  intros Hu. rewrite admission_env. unfold resolved in *.
  unfold createCacheRequestInterceptor, validateCacheOptions, resumed.
  destruct env as [|e1 [|e2 env]];
    [change (firstn 2 []) with (@nil (World -> World))
    |change (firstn 2 [e1]) with [e1]
    |change (firstn 2 (e1 :: e2 :: env)) with [e1; e2]];
    explore_admission.
  all: split; [repeat (apply List.Forall_nil || (apply List.Forall_cons; [split; reflexivity|]))|].
  all: intros x Hx; try discriminate.
  all: injection Hx as <-; split; reflexivity.
Qed.

End Admission.

Section BothInterceptors.

Variable defaultMethods : list string.
Variable defaultRequestIdFunction : Request -> string.
Variable Number_ : string -> option Z.
Variable getCacheId : World -> CacheIdResult.
Variable globalCacheOptions : CacheOptions.

Local Abbreviation options := (resolved defaultMethods defaultRequestIdFunction globalCacheOptions).
Local Abbreviation requestInterceptor :=
  (createCacheRequestInterceptor defaultMethods defaultRequestIdFunction getCacheId
     globalCacheOptions).
Local Abbreviation responseInterceptor :=
  (createCacheResponseInterceptor defaultMethods defaultRequestIdFunction Number_
     globalCacheOptions).

(** The response interceptor never calls [pendingRequestStore.set]. *)
Lemma capture_never_claims (response : CacheResponse) env w :
  Forall (fun ev => isPendingSet ev = false)
         (snd (runs env (responseInterceptor response) w)).
Proof.
  destruct (request response) as [r|] eqn:Hr.
  - destruct (Nat.lt_ge_cases (length env) 2) as [Hlt|Hge].
    + pose proof (capture_short defaultMethods defaultRequestIdFunction Number_
                    globalCacheOptions response r env w Hr Hlt) as H.
      destruct (runs env (responseInterceptor response) w) as [[o w'] tr]. apply H.
    + destruct env as [|e1 [|e2 env]]; simpl in Hge; try lia.
      destruct (fromCache response) eqn:Hf.
      { rewrite (capture_skips _ _ _ globalCacheOptions response r) by auto. constructor. }
      destruct (isMethodSupported (v_methods (options r)) (method r)) eqn:Hm.
      * rewrite (capture_runs _ _ _ globalCacheOptions response r) by auto.
        cbn [snd]. apply Forall_app; split; [unfold sizeEvents; branches; prove_Forall|].
        branches; prove_Forall.
      * rewrite (capture_skips _ _ _ globalCacheOptions response r) by auto. constructor.
  - rewrite capture_missing_request by exact Hr. constructor.
Qed.

(** C2, as amended: for a request whose resolved options have [useCache]
    false, the request interceptor calls neither [ajaxCache.set] nor
    [pendingRequestStore.set] and, when it returns, has changed nothing but
    the current session id; the response interceptor never calls
    [pendingRequestStore.set]. (The response interceptor does not read
    [useCache]: what it stores is not restricted here.) *)
Theorem useCache_false_creates_no_entry :
  (forall request, v_useCache (options request) = false ->
   forall env w,
     let '(outcome, w', tr) := runs env (requestInterceptor request) w in
     Forall (fun ev => isCacheSet ev = false /\ isPendingSet ev = false) tr /\
     forall x, outcome = Returned x ->
       let wr := resumed (sessionSuspensions (getCacheId w)) env w in
       x = inl (attach request (options request) (cacheId (getCacheId w))) /\
       cacheEntries w' = cacheEntries wr /\
       pendingRequests w' = pendingRequests wr) /\
  (forall (response : CacheResponse) r,
     request response = Some r ->
     v_useCache (options r) = false ->
     forall env w,
       Forall (fun ev => isPendingSet ev = false)
              (snd (runs env (responseInterceptor response) w))).
Proof.
  split.
  - intros request Hu env w.
    pose proof (admission_without_cache defaultMethods defaultRequestIdFunction getCacheId
                  globalCacheOptions request env w Hu) as H.
    destruct (runs env (requestInterceptor request) w) as [[outcome w'] tr].
    destruct H as [Htr Hx]. split; [exact Htr|].
    intros x Ho. destruct (Hx x Ho) as [-> ->]. cbv zeta. auto.
  - intros response r _ _ env w. apply capture_never_claims.
Qed.

End BothInterceptors.

Lemma ajaxCache_get_absent requestId maxAge maxResponseSize w :
  cacheEntries w !! requestId = None ->
  ajaxCache_get requestId maxAge maxResponseSize w = None.
Proof. intros H. unfold ajaxCache_get. now rewrite H. Qed.

(** The admission from the pending lookup on, in both cases of [entersAt]. *)
Ltac admission_cbn :=
  cbn -[ajaxCache_get pendingRequestStore_get pendingRequestStore_set resetCacheSession
        isMethodSupported extendCacheOptions spread].

Ltac admission_from_lookup Hid Hu Hm :=
  match goal with
  | |- match pendingRequests ?w !! ?k with _ => _ end =>
    let Hp := fresh "Hp" in
    let Hc := fresh "Hc" in
    destruct (pendingRequests w !! k) eqn:Hp;
    [ | intros Hc ];
    admission_cbn; rewrite ?Hid; admission_cbn; rewrite ?Hu, ?Hm; admission_cbn;
    change (pendingRequestStore_get k (resetCacheSession _ w)) with (pendingRequests w !! k);
    rewrite Hp; admission_cbn;
    [ eexists _, _; reflexivity
    | rewrite ajaxCache_get_absent by exact Hc; admission_cbn;
      eexists _, _; reflexivity ]
  end.

Section Dedup.

Variable defaultMethods : list string.
Variable defaultRequestIdFunction : Request -> string.
Variable getCacheId : World -> CacheIdResult.
Variable globalCacheOptions : CacheOptions.

Local Abbreviation options := (resolved defaultMethods defaultRequestIdFunction globalCacheOptions).
Local Abbreviation requestInterceptor :=
  (createCacheRequestInterceptor defaultMethods defaultRequestIdFunction getCacheId
     globalCacheOptions).
Local Abbreviation advance :=
  (advance defaultMethods defaultRequestIdFunction getCacheId globalCacheOptions).
Local Abbreviation step :=
  (step defaultMethods defaultRequestIdFunction getCacheId globalCacheOptions).

Local Abbreviation cacheable :=
  (cacheable defaultMethods defaultRequestIdFunction globalCacheOptions).

Lemma admission_enters request w :
  cacheable request ->
  let requestId := v_requestIdFunction (options request) request in
  match getCacheId w with
  | Direct _ => entersAt requestId (requestInterceptor request) w
  | Deferred _ =>
    exists k tr,
      run (requestInterceptor request) w = (Suspended SessionIdPromise k, w, tr) /\
      enters requestId k
  end.
Proof.
  intros (Hv & Hu & Hm). cbv zeta. unfold resolved in *.
  unfold createCacheRequestInterceptor, validateCacheOptions. rewrite Hv.
  destruct (getCacheId w) as [id|id] eqn:Hid.
  - exists id. admission_from_lookup Hid Hu Hm.
  - admission_cbn. rewrite Hid. admission_cbn. eexists _, _. split; [reflexivity|].
    intros w'. exists id. admission_from_lookup Hid Hu Hm.
Qed.


Lemma entersAt_advance requestId t w :
  entersAt requestId t w ->
  cacheEntries w !! requestId = None ->
  let '(o, w', _) := run t w in
  (exists id, pendingRequests w !! requestId = None /\ leads (settle o) /\
              w' = pendingRequestStore_set requestId (resetCacheSession id w)) \/
  (exists id p, pendingRequests w !! requestId = Some p /\ follower p (settle o) /\
                w' = resetCacheSession id w).
Proof.
  intros [id H] Hc.
  destruct (pendingRequests w !! requestId) as [p|] eqn:Hp.
  - destruct H as (k & tr & ->). right. exists id, p. repeat split; auto.
    now exists k.
  - destruct (H Hc) as (request' & tr & ->). left. exists id. repeat split; auto.
    now exists request'.
Qed.

Lemma unentered_advance requestId request a w a' w' :
  cacheable request ->
  v_requestIdFunction (options request) request = requestId ->
  unentered requestId request a ->
  cacheEntries w !! requestId = None ->
  advance a w = Some (a', w') ->
  (unentered requestId request a' /\ w' = w) \/
  (exists id, pendingRequests w !! requestId = None /\ leads a' /\
              w' = pendingRequestStore_set requestId (resetCacheSession id w)) \/
  (exists id p, pendingRequests w !! requestId = Some p /\ follower p a' /\
                w' = resetCacheSession id w).
Proof.
  intros Hr Hid [->|(k & -> & Hk)] Hc Ha; cbn in Ha.
  - pose proof (admission_enters request w Hr) as H. cbv zeta in H. rewrite Hid in H.
    destruct (getCacheId w).
    + pose proof (entersAt_advance _ _ _ H Hc) as H'.
      destruct (run (requestInterceptor request) w) as [[o w1] tr].
      injection Ha as <- <-. right. exact H'.
    + destruct H as (k & tr & Hrun & Hk). rewrite Hrun in Ha.
      injection Ha as <- <-. left. split; [|reflexivity]. right. now exists k.
  - pose proof (entersAt_advance _ _ _ (Hk w) Hc) as H'.
    destruct (run k w) as [[o w1] tr].
    injection Ha as <- <-. right. exact H'.
Qed.


Lemma follower_blocked p a w :
  follower p a -> p ∉ settled w -> advance a w = None.
Proof.
  intros [k ->] Hp. cbn. now rewrite bool_decide_eq_false_2.
Qed.

Lemma leads_blocked a w : leads a -> advance a w = None.
Proof. intros [r ->]. reflexivity. Qed.

Lemma unentered_runnable requestId request a w :
  unentered requestId request a -> advance a w <> None.
Proof.
  intros [->|(k & -> & _)]; cbn.
  - destruct (run _ w) as [[o w1] tr]. discriminate.
  - destruct (run k w) as [[o w1] tr]. discriminate.
Qed.

Lemma claim_wellFormed requestId id w :
  wellFormed w ->
  wellFormed (pendingRequestStore_set requestId (resetCacheSession id w)) /\
  nextWaitable w ∉ settled w.
Proof.
  intros Hw. split.
  - intros p Hp. cbn in *. specialize (Hw p Hp). lia.
  - intros Hp. specialize (Hw _ Hp). lia.
Qed.

Lemma deduplicated_step requestId r1 r2 s s' :
  cacheable r1 -> cacheable r2 ->
  v_requestIdFunction (options r1) r1 = requestId ->
  v_requestIdFunction (options r2) r2 = requestId ->
  deduplicated requestId r1 r2 s ->
  step requestId s s' ->
  deduplicated requestId r1 r2 s'.
Proof.
  intros Hr1 Hr2 Hid1 Hid2 Hinv Hstep.
  destruct Hstep as [w a1 a2 a1' w' Ha | w a1 a2 a2' w' Ha | w a1 a2 w' Hb];
    destruct Hinv as (Hw & Hc & Hcases).
  - destruct Hcases as [(Hp & Hu1 & Hu2) | (p & Hp & Hs & [(Hl & Ho) | (Hl & Ho)])].
    + destruct (unentered_advance _ _ _ _ _ _ Hr1 Hid1 Hu1 Hc Ha)
        as [(Hu & ->) | [(id & _ & Hl & ->) | (id & p & Hp' & _)]]; [| |congruence].
      * repeat split; auto.
      * destruct (claim_wellFormed requestId id w Hw) as [Hw' Hfresh].
        split; [exact Hw'|]. split; [exact Hc|]. right.
        exists (nextWaitable w). split; [apply lookup_insert_eq|].
        split; [exact Hfresh|]. left. auto.
    + now rewrite (leads_blocked _ _ Hl) in Ha.
    + destruct Ho as [Hu1 | Hf]; [|now rewrite (follower_blocked _ _ _ Hf Hs) in Ha].
      destruct (unentered_advance _ _ _ _ _ _ Hr1 Hid1 Hu1 Hc Ha)
        as [(Hu & ->) | [(id & Hp' & _) | (id & p' & Hp' & Hf & ->)]]; [|congruence|].
      * split; [exact Hw|]. split; [exact Hc|]. right. exists p. repeat split; auto.
      * assert (p' = p) as -> by congruence.
        split; [exact Hw|]. split; [exact Hc|]. right. exists p. repeat split; auto.
  - destruct Hcases as [(Hp & Hu1 & Hu2) | (p & Hp & Hs & [(Hl & Ho) | (Hl & Ho)])].
    + destruct (unentered_advance _ _ _ _ _ _ Hr2 Hid2 Hu2 Hc Ha)
        as [(Hu & ->) | [(id & _ & Hl & ->) | (id & p & Hp' & _)]]; [| |congruence].
      * repeat split; auto.
      * destruct (claim_wellFormed requestId id w Hw) as [Hw' Hfresh].
        split; [exact Hw'|]. split; [exact Hc|]. right.
        exists (nextWaitable w). split; [apply lookup_insert_eq|].
        split; [exact Hfresh|]. right. auto.
    + destruct Ho as [Hu2 | Hf]; [|now rewrite (follower_blocked _ _ _ Hf Hs) in Ha].
      destruct (unentered_advance _ _ _ _ _ _ Hr2 Hid2 Hu2 Hc Ha)
        as [(Hu & ->) | [(id & Hp' & _) | (id & p' & Hp' & Hf & ->)]]; [|congruence|].
      * split; [exact Hw|]. split; [exact Hc|]. right. exists p. repeat split; auto.
      * assert (p' = p) as -> by congruence.
        split; [exact Hw|]. split; [exact Hc|]. right. exists p. repeat split; auto.
    + now rewrite (leads_blocked _ _ Hl) in Ha.
  - destruct Hb as (Hbp & Hbc & Hbs & Hbw).
    split; [auto|]. split; [congruence|].
    destruct Hcases as [(Hp & Hu1 & Hu2) | (p & Hp & Hs & Hrest)].
    + left. repeat split; auto. congruence.
    + right. exists p. split; [congruence|]. split; [|exact Hrest].
      intros Hin. apply Hs. now apply Hbs.
Qed.

Lemma and_last (P Q R : Prop) : P /\ Q -> R -> P /\ Q /\ R.
Proof. tauto. Qed.

Lemma unentered_advance_rank requestId request a w a' w' :
  cacheable request ->
  v_requestIdFunction (options request) request = requestId ->
  unentered requestId request a ->
  cacheEntries w !! requestId = None ->
  advance a w = Some (a', w') ->
  (rank a' < rank a)%nat.
Proof.
  intros Hr Hid [->|(k & -> & Hk)] Hc Ha; cbn in Ha.
  - pose proof (admission_enters request w Hr) as H. cbv zeta in H. rewrite Hid in H.
    destruct (getCacheId w).
    + pose proof (entersAt_advance _ _ _ H Hc) as H'.
      destruct (run (requestInterceptor request) w) as [[o w1] tr].
      injection Ha as <- <-.
      destruct H' as [(_ & _ & [r ->] & _) | (_ & p & _ & [k ->] & _)]; cbn; lia.
    + destruct H as (k & tr & Hrun & Hk). rewrite Hrun in Ha.
      injection Ha as <- <-. cbn. lia.
  - pose proof (entersAt_advance _ _ _ (Hk w) Hc) as H'.
    destruct (run k w) as [[o w1] tr].
    injection Ha as <- <-.
    destruct H' as [(_ & _ & [r ->] & _) | (_ & p & _ & [k' ->] & _)]; cbn; lia.
Qed.

(** Under the invariant only an activation that has not yet looked up the
    pending registry can run. *)
Lemma deduplicated_runnable requestId r1 r2 w a1 a2 :
  deduplicated requestId r1 r2 (w, a1, a2) ->
  (advance a1 w <> None -> unentered requestId r1 a1) /\
  (advance a2 w <> None -> unentered requestId r2 a2).
Proof.
  intros (_ & _ & [(_ & Hu1 & Hu2) | (p & _ & Hs & [(Hl & Ho) | (Hl & Ho)])]).
  - auto.
  - split; [intros H; now rewrite (leads_blocked _ _ Hl) in H|].
    destruct Ho as [Hu|Hf]; [auto|]. intros H.
    now rewrite (follower_blocked _ _ _ Hf Hs) in H.
  - split; [|intros H; now rewrite (leads_blocked _ _ Hl) in H].
    destruct Ho as [Hu|Hf]; [auto|]. intros H.
    now rewrite (follower_blocked _ _ _ Hf Hs) in H.
Qed.

(** The two activations come to rest: from a state of the invariant the
    scheduler reaches, by spans of the two activations alone, a state in which
    neither can run. *)
Lemma deduplicated_rest requestId r1 r2 n :
  cacheable r1 -> cacheable r2 ->
  v_requestIdFunction (options r1) r1 = requestId ->
  v_requestIdFunction (options r2) r2 = requestId ->
  forall w a1 a2,
    (rank a1 + rank a2 <= n)%nat ->
    deduplicated requestId r1 r2 (w, a1, a2) ->
    exists w' a1' a2',
      rtc (step requestId) (w, a1, a2) (w', a1', a2') /\
      advance a1' w' = None /\ advance a2' w' = None.
Proof.
  intros Hr1 Hr2 Hid1 Hid2.
  induction n as [|n IH]; intros w a1 a2 Hn Hinv;
    destruct (deduplicated_runnable _ _ _ _ _ _ Hinv) as [Hrun1 Hrun2];
    pose proof Hinv as (_ & Hc & _).
  - destruct (advance a1 w) as [[a1' w1]|] eqn:E1.
    { assert (Hu : unentered requestId r1 a1) by (apply Hrun1; discriminate).
      pose proof (unentered_advance_rank _ _ _ _ _ _ Hr1 Hid1 Hu Hc E1). lia. }
    destruct (advance a2 w) as [[a2' w2]|] eqn:E2.
    { assert (Hu : unentered requestId r2 a2) by (apply Hrun2; discriminate).
      pose proof (unentered_advance_rank _ _ _ _ _ _ Hr2 Hid2 Hu Hc E2). lia. }
    exists w, a1, a2. split; [apply rtc_refl|]. auto.
  - destruct (advance a1 w) as [[a1' w1]|] eqn:E1.
    { assert (Hu : unentered requestId r1 a1) by (apply Hrun1; discriminate).
      pose proof (unentered_advance_rank _ _ _ _ _ _ Hr1 Hid1 Hu Hc E1) as Hlt.
      assert (Hstep : step requestId (w, a1, a2) (w1, a1', a2)) by now apply step_first.
      destruct (IH w1 a1' a2) as (w' & b1 & b2 & Hsteps & Hb);
        [lia | eapply deduplicated_step; eauto |].
      exists w', b1, b2. split; [eapply rtc_l; eauto | exact Hb]. }
    destruct (advance a2 w) as [[a2' w2]|] eqn:E2.
    { assert (Hu : unentered requestId r2 a2) by (apply Hrun2; discriminate).
      pose proof (unentered_advance_rank _ _ _ _ _ _ Hr2 Hid2 Hu Hc E2) as Hlt.
      assert (Hstep : step requestId (w, a1, a2) (w2, a1, a2')) by now apply step_second.
      destruct (IH w2 a1 a2') as (w' & b1 & b2 & Hsteps & Hb);
        [lia | eapply deduplicated_step; eauto |].
      exists w', b1, b2. split; [eapply rtc_l; eauto | exact Hb]. }
    exists w, a1, a2. split; [apply rtc_refl|]. auto.
Qed.

(** C9: two cacheable requests with the same request id, started when the
    id has neither a pending entry nor a cache entry, and run by the
    cooperative scheduler in any order while the leader stays unresolved: at
    most one of them is handed on to the network at any time; once neither
    can run any further exactly one was handed on, its pending entry is in the
    registry, and the other is suspended on that entry; and from every state
    they reach, the two activations come to such a rest. *)
Theorem concurrent_requests_share_one_call requestId r1 r2 w0 s :
  cacheable r1 -> cacheable r2 ->
  v_requestIdFunction (options r1) r1 = requestId ->
  v_requestIdFunction (options r2) r2 = requestId ->
  wellFormed w0 ->
  pendingRequests w0 !! requestId = None ->
  cacheEntries w0 !! requestId = None ->
  rtc (step requestId) (w0, Fresh r1, Fresh r2) s ->
  let '(w, a1, a2) := s in
  (dispatched a1 + dispatched a2 <= 1)%nat /\
  (advance a1 w = None -> advance a2 w = None ->
   (dispatched a1 + dispatched a2 = 1)%nat /\
   exists p,
     pendingRequests w !! requestId = Some p /\ (p ∉ settled w) /\
     ((leads a1 /\ follower p a2) \/ (leads a2 /\ follower p a1))) /\
  (exists w' a1' a2',
     rtc (step requestId) (w, a1, a2) (w', a1', a2') /\
     advance a1' w' = None /\ advance a2' w' = None).
Proof.
  intros Hr1 Hr2 Hid1 Hid2 Hw Hp Hc Hsteps.
  assert (Hinv : deduplicated requestId r1 r2 s).
  { revert s Hsteps. apply (rtc_ind_r (deduplicated requestId r1 r2)).
    - split; [exact Hw|]. split; [exact Hc|]. left. repeat split; auto; now left.
    - intros y z _ Hstep Hy. eapply deduplicated_step; eauto. }
  destruct s as [[w a1] a2].
  assert (Hrest : exists w' a1' a2',
             rtc (step requestId) (w, a1, a2) (w', a1', a2') /\
             advance a1' w' = None /\ advance a2' w' = None).
  { eapply (deduplicated_rest requestId r1 r2 (rank a1 + rank a2)); eauto. }
  refine (and_last _ _ _ _ Hrest). clear Hrest.
  destruct Hinv as (_ & _ & Hcases).
  assert (Hun : forall r a, unentered requestId r a -> dispatched a = 0%nat).
  { intros r a [->|(k & -> & _)]; reflexivity. }
  assert (Hfo : forall p a, follower p a -> dispatched a = 0%nat).
  { intros p a [k ->]; reflexivity. }
  assert (Hle : forall a, leads a -> dispatched a = 1%nat).
  { intros a [r ->]; reflexivity. }
  destruct Hcases as [(Hp' & Hu1 & Hu2) | (p & Hp' & Hs & [(Hl & Ho) | (Hl & Ho)])].
  - rewrite (Hun _ _ Hu1), (Hun _ _ Hu2). split; [lia|].
    intros H1 _. exfalso. exact (unentered_runnable _ _ _ w Hu1 H1).
  - rewrite (Hle _ Hl). destruct Ho as [Hu | Hf].
    + rewrite (Hun _ _ Hu). split; [lia|]. intros _ H2.
      exfalso. exact (unentered_runnable _ _ _ w Hu H2).
    + rewrite (Hfo _ _ Hf). split; [lia|]. intros _ _. split; [lia|].
      exists p. auto.
  - rewrite (Hle _ Hl). destruct Ho as [Hu | Hf].
    + rewrite (Hun _ _ Hu). split; [lia|]. intros H1 _.
      exfalso. exact (unentered_runnable _ _ _ w Hu H1).
    + rewrite (Hfo _ _ Hf). split; [lia|]. intros _ _. split; [lia|].
      exists p. auto.
Qed.

End Dedup.

(** * The claims on sample runs *)

Import Sample.

(** C1, as stated, fails: the cached response for [getA] goes through the
    response interceptor while [getA] has a pending entry; no
    [pendingRequestStore.resolve] is called and the entry stays. *)
Lemma cached_response_not_resolved :
  fromCache hitA = true /\
  ~ (exists id,
       In (EPendingResolve id)
          (snd (runs [] (responseInterceptor noOptions hitA) leaderWorld))) /\
  pendingRequests (snd (fst (runs [] (responseInterceptor noOptions hitA) leaderWorld)))
    !! "/a" = Some 0%nat.
Proof.
  split; [reflexivity|]. split.
  - intros [id H]. vm_compute in H. exact H.
  - vm_compute. reflexivity.
Qed.

Lemma cached_response_skips_capture_witness :
  request hitA = Some (handedOn getA) /\
  fromCache hitA = true /\
  runs [] (responseInterceptor noOptions hitA) leaderWorld = (Returned hitA, leaderWorld, []).
Proof.
  split; [reflexivity|]. split; [reflexivity|].
  apply (cached_response_skips_capture ["get"] url decimal noOptions hitA (handedOn getA));
    reflexivity.
Defined.

(** C2, as stated, fails: [getA] with [useCache: false] passes the request interceptor with no
    entry created, and the response interceptor stores its response all the
    same. *)
Lemma useCache_false_response_is_stored :
  v_useCache (resolved ["get"] url noOptions getA_noCache) = false /\
  run (requestInterceptor session1 noOptions getA_noCache) emptyWorld =
  (Returned (inl (handedOn getA_noCache)), resetCacheSession "s1" emptyWorld,
   [EGetCacheId (Direct "s1"); EResetCacheSession "s1"]) /\
  v_useCache (resolved ["get"] url noOptions (handedOn getA_noCache)) = false /\
  cacheEntries (resetCacheSession "s1" emptyWorld) !! "/a" = None /\
  let '(_, w, tr) :=
    runs [] (responseInterceptor noOptions
               (fromNetwork (html "12" 12) (Some (handedOn getA_noCache))))
         (resetCacheSession "s1" emptyWorld) in
  In (ECacheSet "/a" (html "12" 12) 0 0) tr /\
  cacheEntries w !! "/a" =
  Some {| entry_response := html "12" 12; entry_size := 0; entry_createdAt := 0 |}.
Proof.
  split; [reflexivity|]. split; [reflexivity|]. split; [reflexivity|].
  split; [reflexivity|].
  vm_compute. split; [right; left; reflexivity | reflexivity].
Qed.

Lemma useCache_false_creates_no_entry_witness :
  v_useCache (resolved ["get"] url noOptions getA_noCache) = false /\
  Forall (fun ev => isCacheSet ev = false /\ isPendingSet ev = false)
         (snd (runs [] (requestInterceptor session1 noOptions getA_noCache) emptyWorld)) /\
  request (fromNetwork (html "12" 12) (Some (handedOn getA_noCache)))
  = Some (handedOn getA_noCache) /\
  v_useCache (resolved ["get"] url noOptions (handedOn getA_noCache)) = false /\
  Forall (fun ev => isPendingSet ev = false)
         (snd (runs [] (responseInterceptor noOptions
                          (fromNetwork (html "12" 12) (Some (handedOn getA_noCache))))
                    (resetCacheSession "s1" emptyWorld))).
Proof.
  destruct (useCache_false_creates_no_entry ["get"] url decimal session1 noOptions)
    as [Hrequest Hresponse].
  split; [reflexivity|]. split.
  - exact (proj1 (Hrequest getA_noCache eq_refl [] emptyWorld)).
  - split; [reflexivity|]. split; [reflexivity|].
    exact (Hresponse (fromNetwork (html "12" 12) (Some (handedOn getA_noCache)))
                     (handedOn getA_noCache) eq_refl eq_refl [] _).
Defined.


Lemma response_size_only_when_configured_witness :
  let o := resolved ["get"] url maxResponseSize5 getA in
  truthy (v_maxCacheSize o) || truthy (v_maxResponseSize o) = true /\
  runs [id] (responseSizeOf decimal o (html "12" 12)) emptyWorld =
  (Returned 12, emptyWorld, [EAwait ResponseSizePromise]) /\
  runs [id; id] (responseSizeOf decimal o (htmlNoLength 7)) emptyWorld =
  (Returned 7, emptyWorld, [EBlob; EAwait BlobPromise; EAwait ResponseSizePromise]) /\
  responseSizeOf decimal (resolved ["get"] url noOptions getA) (html "12" 12) = Ret 0.
Proof.
  cbv zeta. split; [reflexivity|].
  destruct (response_size_only_when_configured decimal
              (resolved ["get"] url maxResponseSize5 getA) (html "12" 12))
    as [_ Hconfigured].
  destruct (Hconfigured eq_refl) as [Hheader _].
  split; [apply (Hheader 12 eq_refl); lia|].
  destruct (response_size_only_when_configured decimal
              (resolved ["get"] url maxResponseSize5 getA) (htmlNoLength 7))
    as [_ Hconfigured'].
  destruct (Hconfigured' eq_refl) as [_ Hbody].
  split; [apply (Hbody eq_refl id id [] emptyWorld)|].
  destruct (response_size_only_when_configured decimal
              (resolved ["get"] url noOptions getA) (html "12" 12))
    as [Hnot _].
  apply Hnot. reflexivity.
Defined.




Lemma uncacheable_method_invalidates_witness :
  validCacheOptions (cacheOptions postA) = true /\
  v_useCache (resolved ["get"] url noOptions postA) = true /\
  isMethodSupported (v_methods (resolved ["get"] url noOptions postA)) (method postA) = false /\
  cacheEntries storedWorld !! "/a" <> None /\
  let '(outcome, w', tr) := runs [id] (requestInterceptor session1 noOptions postA) storedWorld in
  outcome = Returned (inl (handedOn postA)) /\
  In (EInvalidateMatchingCache "/a") tr /\
  cacheEntries w' !! "/a" = None.
Proof.
  split; [reflexivity|]. split; [reflexivity|]. split; [reflexivity|].
  split; [vm_compute; discriminate|].
  pose proof (uncacheable_method_invalidates ["get"] url session1 noOptions postA id []
                storedWorld eq_refl eq_refl eq_refl) as H.
  cbv zeta in H.
  destruct (runs [id] _ storedWorld) as [[outcome w'] tr].
  destruct H as (Ho & Hin & Hc & _). auto.
Defined.

Lemma cache_hit_is_served_witness :
  let '(outcome, _, tr) := runs [] (requestInterceptor session1 noOptions getA) storedWorld in
  In (ECacheGet "/a" (Some (html "12" 12))) tr /\
  isResponseContentTypeSupported (html "12" 12)
    (v_contentTypes (resolved ["get"] url noOptions getA)) = true /\
  outcome = Returned (inr (hit (html "12" 12) (handedOn getA))).
Proof.
  pose proof (cache_hit_is_served ["get"] url session1 noOptions getA [] storedWorld) as H.
  cbv zeta in H.
  destruct (runs [] _ storedWorld) as [[outcome w'] tr] eqn:E.
  assert (Hin : In (ECacheGet "/a" (Some (html "12" 12))) tr).
  { vm_compute in E. injection E as _ _ <-. right. right. right. left. reflexivity. }
  split; [exact Hin|]. split; [reflexivity|].
  exact (proj1 (proj2 (H "/a" (html "12" 12) Hin eq_refl))).
Defined.

Lemma follower_waits_for_leader_witness :
  let '(outcome, _, tr) :=
    runs [changeSession "s2"] (requestInterceptor session1 noOptions getA) leaderWorld in
  In (EPendingGet "/a" (Some 0%nat)) tr /\
  In (EIsCurrentSessionId (Some "s1") false) tr /\
  outcome = Returned (inl (handedOn getA)) /\
  Forall (fun ev => isCacheGet ev = false) tr.
Proof.
  pose proof (follower_waits_for_leader ["get"] url session1 noOptions getA
                [changeSession "s2"] leaderWorld) as H.
  cbv zeta in H.
  destruct (runs [changeSession "s2"] _ leaderWorld) as [[outcome w'] tr] eqn:E.
  assert (Hin : In (EPendingGet "/a" (Some 0%nat)) tr /\
                In (EIsCurrentSessionId (Some "s1") false) tr).
  { vm_compute in E. injection E as _ _ <-.
    split; [right; right; left; reflexivity | right; right; right; right; left; reflexivity]. }
  destruct Hin as [Hget Hstale].
  split; [exact Hget|]. split; [exact Hstale|].
  exact (proj2 (H 0%nat Hget) Hstale).
Defined.

Lemma concurrent_requests_share_one_call_witness :
  let '(w, a1, a2) := bothStarted in
  rtc (step ["get"] url session1 noOptions "/a") (emptyWorld, Fresh getA, Fresh getA)
      (w, a1, a2) /\
  advance ["get"] url session1 noOptions a1 w = None /\
  advance ["get"] url session1 noOptions a2 w = None /\
  (dispatched a1 + dispatched a2 = 1)%nat /\
  leads a1 /\ follower 0 a2.
Proof.
  destruct bothStarted as [[w a1] a2] eqn:E.
  assert (Hsteps : rtc (step ["get"] url session1 noOptions "/a")
                       (emptyWorld, Fresh getA, Fresh getA) (w, a1, a2)).
  { rewrite <- E. unfold bothStarted.
    destruct (advance ["get"] url session1 noOptions (Fresh getA) emptyWorld)
      as [[b1 w1]|] eqn:E1; [|apply rtc_refl].
    eapply rtc_l; [apply step_first; exact E1|].
    destruct (advance ["get"] url session1 noOptions (Fresh getA) w1)
      as [[b2 w2]|] eqn:E2; [|apply rtc_refl].
    eapply rtc_l; [apply step_second; exact E2|]. apply rtc_refl. }
  assert (Hcacheable : cacheable ["get"] url noOptions getA).
  { repeat split; reflexivity. }
  assert (Hwf : wellFormed emptyWorld).
  { intros p Hp. vm_compute in Hp. set_solver. }
  pose proof (concurrent_requests_share_one_call ["get"] url session1 noOptions "/a"
                getA getA emptyWorld (w, a1, a2) Hcacheable Hcacheable eq_refl eq_refl
                Hwf eq_refl eq_refl Hsteps) as H.
  cbv beta iota in H. destruct H as (_ & H & _).
  assert (H1 : advance ["get"] url session1 noOptions a1 w = None).
  { vm_compute in E. injection E as <- <- <-. reflexivity. }
  assert (H2 : advance ["get"] url session1 noOptions a2 w = None).
  { vm_compute in E. injection E as <- <- <-. reflexivity. }
  split; [exact Hsteps|]. split; [exact H1|]. split; [exact H2|].
  destruct (H H1 H2) as (Hone & p & Hp & Hs & Hcases).
  split; [exact Hone|].
  vm_compute in E. injection E as <- <- <-.
  split; [eexists; reflexivity | eexists; reflexivity].
Defined.

(** * Further properties of the predicates *)

Lemma lower_ascii_idempotent c : lower_ascii (lower_ascii c) = lower_ascii c.
Proof. destruct c as [[] [] [] [] [] [] [] []]; reflexivity. Qed.

Lemma toLowerCase_idempotent s : toLowerCase (toLowerCase s) = toLowerCase s.
Proof.
  induction s as [|c s IH]; [reflexivity|].
  cbn [toLowerCase]. now rewrite lower_ascii_idempotent, IH.
Qed.

(** X1: the method test does not depend on the case of the request method:
    a method and its lower-case form are supported alike. *)
Theorem isMethodSupported_ignores_case (methods : list string) (method : string) :
  isMethodSupported methods (toLowerCase method) = isMethodSupported methods method.
Proof. unfold isMethodSupported. now rewrite toLowerCase_idempotent. Qed.

(** X2: only the lower-case entries of [methods] count: the request method is
    lower-cased before the comparison and the entries are not, so an entry with
    an upper-case letter never matches. *)
Theorem isMethodSupported_lower_case_entries (methods : list string) (method : string) :
  isMethodSupported methods method =
  isMethodSupported (List.filter isLowerCase methods) method.
Proof.
  unfold isMethodSupported.
  induction methods as [|e methods IH]; [reflexivity|].
  cbn [existsb List.filter]. unfold isLowerCase at 1.
  destruct (String.eqb_spec e (toLowerCase e)) as [He|He].
  - cbn [existsb]. now rewrite IH.
  - rewrite <- IH.
    destruct (String.eqb_spec (toLowerCase method) e) as [Hm|Hm]; [|reflexivity].
    exfalso. apply He. rewrite <- Hm at 2. rewrite toLowerCase_idempotent. now symmetry.
Qed.

Lemma append_cons (c : ascii) (a b : string) :
  (String c a ++ b)%string = String c (a ++ b)%string.
Proof. reflexivity. Qed.

Lemma append_empty (b : string) : ("" ++ b)%string = b.
Proof. reflexivity. Qed.

Lemma prefix_app (sub s : string) :
  String.prefix sub s = true <-> exists b, s = (sub ++ b)%string.
Proof.
  revert s. induction sub as [|c sub IH]; intros s.
  - split; [intros _; now exists s | intros _; destruct s; reflexivity].
  - destruct s as [|d s]; cbn [String.prefix].
    + split; [discriminate | intros [b H]; rewrite append_cons in H; discriminate].
    + destruct (Ascii.ascii_dec c d) as [->|Hne].
      * rewrite IH. split; intros [b H]; exists b; rewrite append_cons in *; congruence.
      * split; [discriminate | intros [b H]; rewrite append_cons in H; congruence].
Qed.

Lemma includes_app (s sub : string) :
  includes s sub = true <-> exists a b, s = (a ++ sub ++ b)%string.
Proof.
  induction s as [|c s IH].
  - cbn [includes]. destruct (String.prefix sub "") eqn:Hp.
    + apply prefix_app in Hp. destruct Hp as [b Hb].
      split; [intros _; now exists "", b | reflexivity].
    + split; [discriminate|]. intros (a & b & H).
      destruct a; [|rewrite append_cons in H; discriminate]. rewrite append_empty in H.
      assert (String.prefix sub "" = true) by (apply prefix_app; now exists b).
      congruence.
  - cbn [includes]. destruct (String.prefix sub (String c s)) eqn:Hp.
    + apply prefix_app in Hp. destruct Hp as [b Hb].
      split; [intros _; now exists "", b | reflexivity].
    + rewrite IH. split.
      * intros (a & b & ->). now exists (String c a), b.
      * intros (a & b & H). destruct a as [|d a].
        -- rewrite append_empty in H.
           assert (String.prefix sub (String c s) = true) by (apply prefix_app; now exists b).
           congruence.
        -- rewrite append_cons in H. injection H as _ ->. now exists a, b.
Qed.

(** X3: with a whitelist that has no empty fragment, a response passes the
    content type test exactly when some fragment of the whitelist occurs in
    the text of its Content-Type header. *)
Theorem content_type_whitelist (response : Response) (contentTypes : list string) :
  Forall (fun ct => ct <> "") contentTypes ->
  (isResponseContentTypeSupported response (Some contentTypes) = true <->
   exists ct a b,
     In ct contentTypes /\ contentTypeText response = (a ++ ct ++ b)%string).
Proof.
  intros Hne. unfold isResponseContentTypeSupported. fold (contentTypeText response).
  destruct (List.find _ contentTypes) as [ct|] eqn:Hfind.
  - apply List.find_some in Hfind. destruct Hfind as [Hin Hinc].
    rewrite List.Forall_forall in Hne. specialize (Hne ct Hin).
    destruct (String.eqb_spec ct "") as [->|_]; [contradiction|]. cbn.
    split; [intros _|reflexivity].
    apply includes_app in Hinc. destruct Hinc as (a & b & H). now exists ct, a, b.
  - split; [discriminate|]. intros (ct & a & b & Hin & H).
    pose proof (List.find_none _ _ Hfind ct Hin) as Hnone. cbn in Hnone.
    assert (includes (contentTypeText response) ct = true)
      by (apply includes_app; now exists a, b).
    congruence.
Qed.

(** X4: an empty fragment in the whitelist is found by [find] (every text
    includes it) and is falsy: when no fragment before it occurs in the
    Content-Type text, the response is rejected, whatever comes after. *)
Theorem content_type_empty_fragment (response : Response) (before after : list string) :
  Forall (fun ct => includes (contentTypeText response) ct = false) before ->
  isResponseContentTypeSupported response (Some (before ++ "" :: after)%list) = false.
Proof.
  intros Hb. unfold isResponseContentTypeSupported. fold (contentTypeText response).
  induction Hb as [|ct before Hct _ IH]; cbn [app List.find].
  - replace (includes (contentTypeText response) "") with true; [reflexivity|].
    symmetry. apply includes_app. now exists "", (contentTypeText response).
  - rewrite Hct. exact IH.
Qed.

(** X5: a response with no Content-Type header is tested as if the header
    were the text null. *)
Theorem content_type_absent_reads_null (response : Response) (contentTypes : option (list string)) :
  headers_get "Content-Type" (headers response) = None ->
  isResponseContentTypeSupported response contentTypes =
  isResponseContentTypeSupported
    {| headers := [("Content-Type", "null")]; bodySize := bodySize response |} contentTypes.
Proof.
  intros H. unfold isResponseContentTypeSupported. now rewrite H.
Qed.

(** * Further properties of the interceptors *)

Ltac split_events H :=
  repeat match type of H with
         | _ \/ _ => destruct H as [H|H]
         end.

Section AdmissionMore.

Variable defaultMethods : list string.
Variable defaultRequestIdFunction : Request -> string.
Variable getCacheId : World -> CacheIdResult.
Variable globalCacheOptions : CacheOptions.

Local Abbreviation options := (resolved defaultMethods defaultRequestIdFunction globalCacheOptions).
Local Abbreviation requestInterceptor :=
  (createCacheRequestInterceptor defaultMethods defaultRequestIdFunction getCacheId
     globalCacheOptions).

Ltac start_admission :=
  cbv zeta; rewrite admission_env; unfold resolved in *;
  unfold createCacheRequestInterceptor, validateCacheOptions.

Ltac by_length env :=
  let e1 := fresh "e1" in
  let e2 := fresh "e2" in
  destruct env as [|e1 [|e2 env]];
  [change (firstn 2 []) with (@nil (World -> World))
  |change (firstn 2 [e1]) with [e1]
  |change (firstn 2 (e1 :: e2 :: env)) with [e1; e2]].

(** X7: when [validateCacheOptions] rejects the options of the request, the
    request interceptor throws at once: the session id provider is not asked,
    the session is not reset, the state is as it was. *)
Theorem invalid_options_throw_first request env w :
  validCacheOptions (cacheOptions request) = false ->
  runs env (requestInterceptor request) w = (Thrown ConfigError, w, []).
Proof.
  intros Hv. apply runs_thrown.
  unfold createCacheRequestInterceptor, validateCacheOptions. now rewrite Hv.
Qed.

(** X8: every admission pass that got past validation asks the session id
    provider and resets the cache session with its answer before anything
    else, whatever [useCache] says, and does neither a second time. *)
Theorem session_reset_on_every_pass request e env w :
  validCacheOptions (cacheOptions request) = true ->
  exists rest,
    snd (runs (e :: env) (requestInterceptor request) w) =
    (sessionEvents (getCacheId w) ++ rest)%list /\
    Forall (fun ev => isGetCacheId ev = false /\ isResetCacheSession ev = false) rest.
Proof.
  intros Hv. start_admission. rewrite Hv.
  destruct env as [|e2 env];
    [change (firstn 2 [e]) with [e] | change (firstn 2 (e :: e2 :: env)) with [e; e2]];
    explore_admission.
  all: eexists; split; [reflexivity|].
  all: repeat (apply List.Forall_nil || (apply List.Forall_cons; [split; reflexivity|])).
Qed.


(** X11: the request interceptor returns a response only out of the cache:
    a returned response is the clone of an entry that the lookup for the
    request id gave and whose content type passes, it has [fromCache] set and
    carries the request with the resolved options and the session id. *)
Theorem served_response_comes_from_cache request env w response :
  fst (fst (runs env (requestInterceptor request) w)) = Returned (inr response) ->
  let o := options request in
  let request' := attach request o (cacheId (getCacheId w)) in
  exists cached,
    In (ECacheGet (v_requestIdFunction o request') (Some cached))
       (snd (runs env (requestInterceptor request) w)) /\
    isResponseContentTypeSupported cached (v_contentTypes o) = true /\
    response = {| res := clone cached; request := Some request'; fromCache := true |}.
Proof.
  start_admission. by_length env; explore_admission.
  all: intros H; try discriminate.
  all: injection H as <-.
  all: eexists; split; [find_event|split; [eassumption|reflexivity]].
Qed.

(** X12: a request the interceptor hands on is the request it was given with
    the resolved options and the session id stored in it; its method and URL
    are untouched. *)
Theorem handed_on_request_carries_context request env w request' :
  fst (fst (runs env (requestInterceptor request) w)) = Returned (inl request') ->
  request' = attach request (options request) (cacheId (getCacheId w)) /\
  req request' = req request /\
  cacheSessionId request' = Some (cacheId (getCacheId w)).
Proof.
  start_admission. by_length env; explore_admission.
  all: intros H; try discriminate.
  all: injection H as <-; repeat split.
Qed.

(** X14: whenever the cache lookup of a pass gives nothing to serve (no
    entry, or an entry whose content type fails the whitelist), the pass marks
    the request id as pending as its last call and hands the request on. This
    holds for a pass that waited for a leader as well. *)
Theorem miss_marks_pending request env w :
  let o := options request in
  let request' := attach request o (cacheId (getCacheId w)) in
  let requestId := v_requestIdFunction o request' in
  let '(outcome, w', tr) := runs env (requestInterceptor request) w in
  forall found,
    In (ECacheGet requestId found) tr ->
    match found with
    | Some cached => isResponseContentTypeSupported cached (v_contentTypes o) = false
    | None => True
    end ->
    outcome = Returned (inl request') /\
    (exists before, tr = (before ++ [EPendingSet requestId])%list /\
                    Forall (fun ev => isPendingSet ev = false) before) /\
    pendingRequests w' !! requestId <> None.
Proof.
  start_admission. by_length env; explore_admission.
  all: intros found Hin Hfound.
  all: split_events Hin; try discriminate; try contradiction.
  all: match goal with
       | H : ECacheGet _ _ = ECacheGet _ _ |- _ => injection H as <-
       end.
  all: try congruence.
  all: split; [reflexivity|].
  all: split; [| unfold pendingRequestStore_set; cbn; rewrite lookup_insert_eq; discriminate].
  all: match goal with
       | |- exists before, ?tr = _ /\ _ =>
         exists (removelast tr); split; [reflexivity|cbn; prove_Forall]
       end.
Qed.

(** X15: a pass that bypasses the cache ([useCache] false, or a method
    outside [methods]) never looks at the pending registry or reads the cache
    store, and so never waits for another request. *)
Theorem bypass_skips_registry_and_cache request env w :
  v_useCache (options request) = false \/
  isMethodSupported (v_methods (options request)) (method request) = false ->
  let '(outcome, _, tr) := runs env (requestInterceptor request) w in
  Forall (fun ev => isPendingGet ev = false /\ isPendingSet ev = false /\
                    isCacheGet ev = false) tr /\
  forall p k, outcome <> Suspended (PendingRequest p) k.
Proof.
  intros [H|H]; start_admission; by_length env; explore_admission.
  all: split;
    [repeat (apply List.Forall_nil || (apply List.Forall_cons; [repeat split|]))
    |intros p k Heq; discriminate Heq].
Qed.

End AdmissionMore.

Lemma resolved_attach defaultMethods defaultRequestIdFunction g request id :
  resolved defaultMethods defaultRequestIdFunction g
    (attach request (resolved defaultMethods defaultRequestIdFunction g request) id) =
  resolved defaultMethods defaultRequestIdFunction g request.
Proof.
  unfold resolved, attach, extendCacheOptions, asCacheOptions, spread, orElse.
  cbn [cacheOptions v_useCache v_requestIdFunction v_methods v_contentTypes v_maxAge
       v_maxResponseSize v_maxCacheSize useCache requestIdFunction methods contentTypes
       maxAge maxResponseSize maxCacheSize default].
  destruct (cacheOptions request) as [o|];
    cbn [useCache requestIdFunction methods contentTypes maxAge maxResponseSize maxCacheSize].
  - destruct (contentTypes o), (maxAge o), (maxResponseSize o), (maxCacheSize o);
      try reflexivity;
      destruct (contentTypes g), (maxAge g), (maxResponseSize g), (maxCacheSize g);
      reflexivity.
  - destruct (contentTypes g), (maxAge g), (maxResponseSize g), (maxCacheSize g);
      reflexivity.
Qed.



Lemma resolve_keeps_cache requestId w :
  cacheEntries (pendingRequestStore_resolve requestId w) = cacheEntries w /\
  cacheSize (pendingRequestStore_resolve requestId w) = cacheSize w /\
  now (pendingRequestStore_resolve requestId w) = now w /\
  currentSessionId (pendingRequestStore_resolve requestId w) = currentSessionId w.
Proof.
  unfold pendingRequestStore_resolve.
  destruct (pendingRequests w !! requestId); repeat split.
Qed.


Section CaptureMore.

Variable defaultMethods : list string.
Variable defaultRequestIdFunction : Request -> string.
Variable Number_ : string -> option Z.
Variable globalCacheOptions : CacheOptions.

Local Abbreviation options := (resolved defaultMethods defaultRequestIdFunction globalCacheOptions).
Local Abbreviation responseInterceptor :=
  (createCacheResponseInterceptor defaultMethods defaultRequestIdFunction Number_
     globalCacheOptions).

(** X6: a Content-Length header that reads as zero or as no number at all is
    not used: [getResponseSize] reads the body and gives its length. *)
Theorem unusable_content_length_reads_body (response : Response) (text : string) :
  headers_get "Content-Length" (headers response) = Some text ->
  Number_ text = None \/ Number_ text = Some 0 ->
  forall e env w,
    runs (e :: env) (getResponseSize Number_ response) w =
    (Returned (bodySize response), e w, [EBlob; EAwait BlobPromise]).
Proof.
  intros Hh Hn e env w.
  change (e :: env) with ([e] ++ env)%list. apply runs_returned_app.
  unfold getResponseSize. rewrite Hh. cbn [Number_header].
  destruct Hn as [-> | ->]; cbn;
    destruct (Z.eqb_spec (bodySize response) 0) as [->|]; reflexivity.
Qed.

Lemma capture_env (response : CacheResponse) env w :
  runs env (responseInterceptor response) w =
  runs (firstn 2 env) (responseInterceptor response) w.
Proof.
  destruct env as [|e1 [|e2 env]]; try reflexivity.
  change (firstn 2 (e1 :: e2 :: env)) with [e1; e2].
  destruct (request response) as [r|] eqn:Hr.
  - destruct (fromCache response) eqn:Hf.
    { rewrite !(capture_skips _ _ _ globalCacheOptions response r) by auto. reflexivity. }
    destruct (isMethodSupported (v_methods (options r)) (method r)) eqn:Hm.
    + rewrite (capture_runs _ _ _ globalCacheOptions response r e1 e2 env) by auto.
      rewrite (capture_runs _ _ _ globalCacheOptions response r e1 e2 []) by auto.
      unfold resumed, sizeSuspensions.
      destruct (sizeConfigured _); [destruct (truthy _)|]; reflexivity.
    + rewrite !(capture_skips _ _ _ globalCacheOptions response r) by auto. reflexivity.
  - rewrite !capture_missing_request by exact Hr. reflexivity.
Qed.

(** X10: the response interceptor makes none of the calls of the request
    phase: it never asks for the session id, never resets the session, never
    invalidates, never looks up or marks a pending request, never reads the
    cache store. *)
Theorem capture_never_admits (response : CacheResponse) env w :
  Forall (fun ev => admissionCall ev = false)
         (snd (runs env (responseInterceptor response) w)).
Proof.
  rewrite capture_env.
  unfold createCacheResponseInterceptor, responseSizeOf, getResponseSize.
  destruct (request response) as [r|];
    [|destruct env as [|e1 [|e2 env]]; cbn; constructor].
  destruct env as [|e1 [|e2 env]];
    [change (firstn 2 []) with (@nil (World -> World))
    |change (firstn 2 [e1]) with [e1]
    |change (firstn 2 (e1 :: e2 :: env)) with [e1; e2]];
    explore; prove_Forall.
Qed.


(** X17: when the session id of the request is no longer the current one at
    the decision, or the content type or the size fails, the response
    interceptor leaves the cache store exactly as it was then. *)
Theorem ineligible_response_leaves_cache (response : CacheResponse) r e1 e2 env w :
  request response = Some r ->
  fromCache response = false ->
  isMethodSupported (v_methods (options r)) (method r) = true ->
  let o := options r in
  let wc := resumed (sizeSuspensions Number_ o response) (e1 :: e2 :: env) w in
  isCurrentSessionId (cacheSessionId r) wc
  && isResponseContentTypeSupported response (v_contentTypes o)
  && isResponseSizeSupported (Some (measuredSize Number_ o response)) (v_maxResponseSize o)
  = false ->
  let w' := snd (fst (runs (e1 :: e2 :: env) (responseInterceptor response) w)) in
  cacheEntries w' = cacheEntries wc /\ cacheSize w' = cacheSize wc.
Proof.
  intros Hr Hf Hm o wc Hel w'. subst w'.
  rewrite (capture_runs _ _ _ globalCacheOptions response r e1 e2 env w Hr Hf Hm).
  fold o. fold wc. rewrite Hel. cbn [fst snd].
  destruct (resolve_keeps_cache (v_requestIdFunction o r) wc) as (H1 & H2 & _). auto.
Qed.


(** X21: a response whose request has a method outside [methods] goes
    through the response interceptor with no call at all: nothing is stored
    and no pending request is resolved. *)
Theorem uncacheable_response_passes_through (response : CacheResponse) r env w :
  request response = Some r ->
  isMethodSupported (v_methods (options r)) (method r) = false ->
  runs env (responseInterceptor response) w = (Returned response, w, []).
Proof.
  intros Hr Hm. apply (capture_skips _ _ _ globalCacheOptions response r); auto.
Qed.

End CaptureMore.

Lemma withinLimit_zero (limit : option Z) :
  nonNegative limit = true -> withinLimit 0 limit = true.
Proof. destruct limit; auto. Qed.

Section RoundTrip.

Variable defaultMethods : list string.
Variable defaultRequestIdFunction : Request -> string.
Variable Number_ : string -> option Z.
Variable getCacheId : World -> CacheIdResult.
Variable globalCacheOptions : CacheOptions.

Local Abbreviation options := (resolved defaultMethods defaultRequestIdFunction globalCacheOptions).
Local Abbreviation requestInterceptor :=
  (createCacheRequestInterceptor defaultMethods defaultRequestIdFunction getCacheId
     globalCacheOptions).
Local Abbreviation responseInterceptor :=
  (createCacheResponseInterceptor defaultMethods defaultRequestIdFunction Number_
     globalCacheOptions).
Local Abbreviation cacheable :=
  (cacheable defaultMethods defaultRequestIdFunction globalCacheOptions).

(** X13: the options the response interceptor resolves from a request that
    the request interceptor handed on are the options the request interceptor
    resolved, and the request id is the same. *)
Theorem capture_sees_admission_options request id :
  let o := options request in
  options (attach request o id) = o /\
  v_requestIdFunction (options (attach request o id)) (attach request o id) =
  v_requestIdFunction o request.
Proof.
  cbv zeta. rewrite resolved_attach. split; reflexivity.
Qed.

(** With neither size limit configured, in the session of its request, a
    response whose content type passes is stored in one span. *)
Lemma capture_unlimited (response : CacheResponse) r w :
  request response = Some r ->
  fromCache response = false ->
  isMethodSupported (v_methods (options r)) (method r) = true ->
  v_maxResponseSize (options r) = None ->
  v_maxCacheSize (options r) = None ->
  isResponseContentTypeSupported response (v_contentTypes (options r)) = true ->
  currentSessionId w = cacheSessionId r ->
  snd (fst (runs [] (responseInterceptor response) w)) =
  pendingRequestStore_resolve (v_requestIdFunction (options r) r)
    (ajaxCache_set (v_requestIdFunction (options r) r) (clone response) 0 w).
Proof.
  intros Hr Hf Hm Hs Hc Hct Hsid. rewrite runs_nil.
  unfold createCacheResponseInterceptor, responseSizeOf, resolved in *.
  rewrite Hr, Hf, Hm, Hs, Hc.
  cbn -[isCurrentSessionId ajaxCache_set pendingRequestStore_resolve
        isResponseContentTypeSupported extendCacheOptions spread].
  unfold isCurrentSessionId. rewrite bool_decide_eq_true_2 by exact Hsid.
  rewrite Hct.
  cbn -[ajaxCache_set pendingRequestStore_resolve extendCacheOptions spread].
  reflexivity.
Qed.



(** X19: an admission pass with a method outside [methods] leaves no entry
    for its request id, so that the next cacheable request with the same id
    (no request pending) looks the cache up in vain, marks itself pending and
    goes to the network, whatever was stored before. *)
Theorem invalidated_entry_is_missed uncached request id w :
  validCacheOptions (cacheOptions uncached) = true ->
  v_useCache (options uncached) = true ->
  isMethodSupported (v_methods (options uncached)) (method uncached) = false ->
  cacheable request ->
  v_requestIdFunction (options uncached) uncached =
  v_requestIdFunction (options request) request ->
  (forall w', getCacheId w' = Direct id) ->
  pendingRequests w !! v_requestIdFunction (options request) request = None ->
  let requestId := v_requestIdFunction (options request) request in
  let w1 := snd (fst (run (requestInterceptor uncached) w)) in
  let '(outcome, _, tr) := run (requestInterceptor request) w1 in
  outcome = Returned (inl (attach request (options request) id)) /\
  In (ECacheGet requestId None) tr /\
  In (EPendingSet requestId) tr.
Proof.
  intros Hv Hu Hm (Hv2 & Hu2 & Hm2) Hrid Hid Hp requestId w1.
  subst w1 requestId. unfold resolved in *.
  unfold createCacheRequestInterceptor, validateCacheOptions. rewrite Hv, Hv2.
  admission_cbn. rewrite !Hid. admission_cbn. rewrite ?Hu, ?Hm, ?Hu2, ?Hm2. admission_cbn.
  rewrite ?Hid. admission_cbn. rewrite ?Hu, ?Hm, ?Hu2, ?Hm2. admission_cbn. rewrite Hrid.
  set (requestId := v_requestIdFunction _ request) in *.
  set (o := extendCacheOptions _ _ (spread globalCacheOptions (cacheOptions uncached))).
  change (pendingRequestStore_get requestId
            (resetCacheSession id (invalidateMatchingCache requestId o (resetCacheSession id w))))
    with (pendingRequests w !! requestId).
  rewrite Hp. admission_cbn.
  rewrite ajaxCache_get_absent by (cbn; apply lookup_delete_eq).
  admission_cbn. split; [reflexivity|]. split; find_event.
Qed.

(** X20: the follower gets the leader's response. A request that finds a
    leader pending waits; when, in between, the response interceptor stores
    the leader's response (same session, content type passing, no size limit
    configured), the follower wakes, finds the session current and the entry
    in the cache store, and is served a clone of it without going to the
    network. *)
Theorem follower_is_served_after_capture (response : CacheResponse) r waiting id p w :
  request response = Some r ->
  fromCache response = false ->
  isMethodSupported (v_methods (options r)) (method r) = true ->
  v_maxResponseSize (options r) = None ->
  v_maxCacheSize (options r) = None ->
  isResponseContentTypeSupported response (v_contentTypes (options r)) = true ->
  cacheSessionId r = Some id ->
  cacheable waiting ->
  v_requestIdFunction (options waiting) waiting = v_requestIdFunction (options r) r ->
  nonNegative (v_maxAge (options waiting)) = true ->
  nonNegative (v_maxResponseSize (options waiting)) = true ->
  isResponseContentTypeSupported response (v_contentTypes (options waiting)) = true ->
  getCacheId w = Direct id ->
  pendingRequests w !! v_requestIdFunction (options r) r = Some p ->
  let capture := fun w0 => snd (fst (runs [] (responseInterceptor response) w0)) in
  let '(outcome, _, tr) := runs [capture] (requestInterceptor waiting) w in
  outcome = Returned (inr {| res := clone response;
                             request := Some (attach waiting (options waiting) id);
                             fromCache := true |}) /\
  In (EAwait (PendingRequest p)) tr /\
  Forall (fun ev => isPendingSet ev = false) tr.
Proof.
  intros Hr Hf Hm Hs Hc Hct Hsid (Hv & Hu & Hm2) Hrid Hage Hsize Hct2 Hid Hp capture.
  assert (Hcap : forall w0, currentSessionId w0 = Some id ->
            capture w0 =
            pendingRequestStore_resolve (v_requestIdFunction (options r) r)
              (ajaxCache_set (v_requestIdFunction (options r) r) (clone response) 0 w0)).
  { intros w0 Hw0. apply (capture_unlimited response r w0); auto. congruence. }
  unfold resolved in *.
  unfold createCacheRequestInterceptor, validateCacheOptions. rewrite Hv.
  cbn -[ajaxCache_get pendingRequestStore_get pendingRequestStore_set resetCacheSession
        isMethodSupported extendCacheOptions spread isCurrentSessionId capture].
  rewrite Hid.
  cbn -[ajaxCache_get pendingRequestStore_get pendingRequestStore_set resetCacheSession
        isMethodSupported extendCacheOptions spread isCurrentSessionId capture].
  rewrite Hu, Hm2.
  cbn -[ajaxCache_get pendingRequestStore_get pendingRequestStore_set resetCacheSession
        isMethodSupported extendCacheOptions spread isCurrentSessionId capture].
  rewrite Hrid.
  set (requestId := v_requestIdFunction _ r) in *.
  change (pendingRequestStore_get requestId (resetCacheSession id w))
    with (pendingRequests w !! requestId).
  rewrite Hp.
  cbn -[ajaxCache_get pendingRequestStore_get pendingRequestStore_set resetCacheSession
        isMethodSupported extendCacheOptions spread isCurrentSessionId capture].
  rewrite (Hcap (resetCacheSession id w)) by reflexivity.
  set (w1 := pendingRequestStore_resolve requestId _).
  destruct (resolve_keeps_cache requestId
              (ajaxCache_set requestId (clone response) 0 (resetCacheSession id w)))
    as (Hce & _ & Hnow & Hcur).
  fold w1 in Hce, Hnow, Hcur.
  replace (isCurrentSessionId (Some id) w1) with true
    by (unfold isCurrentSessionId; rewrite Hcur; symmetry; now apply bool_decide_eq_true_2).
  cbn -[ajaxCache_get pendingRequestStore_get pendingRequestStore_set resetCacheSession
        isMethodSupported extendCacheOptions spread isCurrentSessionId capture].
  replace (ajaxCache_get requestId _ _ w1) with (Some (clone response)).
  2:{ unfold ajaxCache_get. rewrite Hce, Hnow.
      cbn [ajaxCache_set with_cache cacheEntries]. rewrite lookup_insert_eq.
      cbn [ajaxCache_set with_cache resetCacheSession with_session now
           entry_createdAt entry_size entry_response].
      rewrite Z.sub_diag.
      rewrite (withinLimit_zero _ Hage), (withinLimit_zero _ Hsize). reflexivity. }
  cbn -[pendingRequestStore_set resetCacheSession isMethodSupported extendCacheOptions
        spread capture isResponseContentTypeSupported].
  change (isResponseContentTypeSupported (clone response) ?c)
    with (isResponseContentTypeSupported response c).
  rewrite Hct2.
  cbn -[pendingRequestStore_set resetCacheSession extendCacheOptions spread capture].
  split; [reflexivity|]. split; [find_event|prove_Forall].
Qed.

End RoundTrip.

(** * The further properties on sample runs *)

Lemma content_type_whitelist_witness :
  Forall (fun ct => ct <> "") ["json"; "html"] /\
  isResponseContentTypeSupported (html "12" 12) (Some ["json"; "html"]) = true /\
  exists ct a b,
    In ct ["json"; "html"] /\ contentTypeText (html "12" 12) = (a ++ ct ++ b)%string.
Proof.
  assert (H : Forall (fun ct => ct <> "") ["json"; "html"])
    by (repeat constructor; discriminate).
  split; [exact H|]. split; [reflexivity|].
  apply (proj1 (content_type_whitelist (html "12" 12) ["json"; "html"] H)). reflexivity.
Defined.

Lemma content_type_empty_fragment_witness :
  Forall (fun ct => includes (contentTypeText (html "12" 12)) ct = false) ["json"] /\
  isResponseContentTypeSupported (html "12" 12) (Some ["json"; ""; "html"]) = false /\
  isResponseContentTypeSupported (html "12" 12) (Some ["json"; "html"]) = true.
Proof.
  assert (H : Forall (fun ct => includes (contentTypeText (html "12" 12)) ct = false) ["json"])
    by (repeat constructor).
  split; [exact H|]. split; [|reflexivity].
  exact (content_type_empty_fragment (html "12" 12) ["json"] ["html"] H).
Defined.

Lemma content_type_absent_reads_null_witness :
  headers_get "Content-Type" (headers (noHeaders 3)) = None /\
  isResponseContentTypeSupported (noHeaders 3) (Some ["ul"]) =
  isResponseContentTypeSupported
    {| headers := [("Content-Type", "null")]; bodySize := 3 |} (Some ["ul"]) /\
  isResponseContentTypeSupported (noHeaders 3) (Some ["ul"]) = true.
Proof.
  split; [reflexivity|]. split; [|reflexivity].
  exact (content_type_absent_reads_null (noHeaders 3) (Some ["ul"]) eq_refl).
Defined.

Lemma unusable_content_length_reads_body_witness :
  headers_get "Content-Length" (headers (html "0" 7)) = Some "0" /\
  decimal "0" = Some 0 /\
  runs [id] (getResponseSize decimal (html "0" 7)) emptyWorld =
  (Returned 7, emptyWorld, [EBlob; EAwait BlobPromise]) /\
  headers_get "Content-Length" (headers (html "abc" 7)) = Some "abc" /\
  decimal "abc" = None /\
  runs [id] (getResponseSize decimal (html "abc" 7)) emptyWorld =
  (Returned 7, emptyWorld, [EBlob; EAwait BlobPromise]).
Proof.
  split; [reflexivity|]. split; [reflexivity|]. split.
  - exact (unusable_content_length_reads_body decimal (html "0" 7) "0" eq_refl
             (or_intror eq_refl) id [] emptyWorld).
  - split; [reflexivity|]. split; [reflexivity|].
    exact (unusable_content_length_reads_body decimal (html "abc" 7) "abc" eq_refl
             (or_introl eq_refl) id [] emptyWorld).
Defined.

Lemma invalid_options_throw_first_witness :
  validCacheOptions (cacheOptions getA_invalid) = false /\
  runs [id] (requestInterceptor session1 noOptions getA_invalid) storedWorld =
  (Thrown ConfigError, storedWorld, []).
Proof.
  split; [reflexivity|].
  exact (invalid_options_throw_first ["get"] url session1 noOptions getA_invalid [id]
           storedWorld eq_refl).
Defined.

Lemma session_reset_on_every_pass_witness :
  validCacheOptions (cacheOptions getA_noCache) = true /\
  exists rest,
    snd (runs [id] (requestInterceptor session1_deferred noOptions getA_noCache) emptyWorld) =
    ([EGetCacheId (Deferred "s1"); EAwait SessionIdPromise; EResetCacheSession "s1"]
       ++ rest)%list.
Proof.
  split; [reflexivity|].
  destruct (session_reset_on_every_pass ["get"] url session1_deferred noOptions getA_noCache
              id [] emptyWorld eq_refl) as (rest & H & _).
  exists rest. exact H.
Defined.

Lemma served_response_comes_from_cache_witness :
  fst (fst (runs [] (requestInterceptor session1 noOptions getA) storedWorld)) =
  Returned (inr hitA) /\
  exists cached,
    In (ECacheGet "/a" (Some cached))
       (snd (runs [] (requestInterceptor session1 noOptions getA) storedWorld)) /\
    hitA = {| res := clone cached; request := Some (handedOn getA); fromCache := true |}.
Proof.
  assert (H : fst (fst (runs [] (requestInterceptor session1 noOptions getA) storedWorld)) =
              Returned (inr hitA)) by reflexivity.
  split; [exact H|].
  destruct (served_response_comes_from_cache ["get"] url session1 noOptions getA []
              storedWorld hitA H) as (cached & Hin & _ & Heq).
  exists cached. split; [exact Hin | exact Heq].
Defined.

Lemma handed_on_request_carries_context_witness :
  fst (fst (runs [] (requestInterceptor session1 noOptions getA) emptyWorld)) =
  Returned (inl (handedOn getA)) /\
  req (handedOn getA) = req getA /\
  cacheSessionId (handedOn getA) = Some "s1".
Proof.
  assert (H : fst (fst (runs [] (requestInterceptor session1 noOptions getA) emptyWorld)) =
              Returned (inl (handedOn getA))) by reflexivity.
  split; [exact H|].
  exact (proj2 (handed_on_request_carries_context ["get"] url session1 noOptions getA []
                  emptyWorld (handedOn getA) H)).
Defined.

Lemma miss_marks_pending_witness :
  let '(outcome, w', tr) :=
    runs [pendingRequestStore_resolve "/a"] (requestInterceptor session1 noOptions getA)
         leaderWorld in
  In (EPendingGet "/a" (Some 0%nat)) tr /\
  In (ECacheGet "/a" None) tr /\
  outcome = Returned (inl (handedOn getA)) /\
  pendingRequests w' !! "/a" <> None.
Proof.
  pose proof (miss_marks_pending ["get"] url session1 noOptions getA
                [pendingRequestStore_resolve "/a"] leaderWorld) as H.
  cbv zeta in H.
  destruct (runs [pendingRequestStore_resolve "/a"] _ leaderWorld)
    as [[outcome w'] tr] eqn:E.
  assert (Hin : In (EPendingGet "/a" (Some 0%nat)) tr /\ In (ECacheGet "/a" None) tr).
  { vm_compute in E. injection E as _ _ <-.
    split; [right; right; left; reflexivity
           |right; right; right; right; right; left; reflexivity]. }
  destruct Hin as [Hpending Hget].
  split; [exact Hpending|]. split; [exact Hget|].
  destruct (H None Hget I) as (Ho & _ & Hp). split; [exact Ho | exact Hp].
Defined.


Lemma ineligible_response_leaves_cache_witness :
  request responseA = Some (handedOn getA) /\
  fromCache responseA = false /\
  isMethodSupported (v_methods (resolved ["get"] url noOptions (handedOn getA)))
                    (method (handedOn getA)) = true /\
  isCurrentSessionId (cacheSessionId (handedOn getA)) (changeSession "s2" leaderWorld) = false /\
  cacheEntries (snd (fst (runs [id; id] (responseInterceptor noOptions responseA)
                               (changeSession "s2" leaderWorld)))) =
  cacheEntries (changeSession "s2" leaderWorld).
Proof.
  split; [reflexivity|]. split; [reflexivity|]. split; [reflexivity|].
  split; [reflexivity|].
  exact (proj1 (ineligible_response_leaves_cache ["get"] url decimal noOptions responseA
                  (handedOn getA) id id [] (changeSession "s2" leaderWorld)
                  eq_refl eq_refl eq_refl eq_refl)).
Defined.



Lemma invalidated_entry_is_missed_witness :
  cacheEntries storedWorld !! "/a" <> None /\
  isMethodSupported (v_methods (resolved ["get"] url noOptions postA)) (method postA) = false /\
  cacheable ["get"] url noOptions getA /\
  let w1 := snd (fst (run (requestInterceptor session1 noOptions postA) storedWorld)) in
  fst (fst (run (requestInterceptor session1 noOptions getA) w1)) =
  Returned (inl (handedOn getA)).
Proof.
  assert (Hc : cacheable ["get"] url noOptions getA) by (repeat split; reflexivity).
  split; [vm_compute; discriminate|]. split; [reflexivity|]. split; [exact Hc|].
  pose proof (invalidated_entry_is_missed ["get"] url session1 noOptions postA getA "s1"
                storedWorld eq_refl eq_refl eq_refl Hc eq_refl (fun _ => eq_refl) eq_refl)
    as H.
  cbv zeta in H |- *. unfold requestInterceptor.
  destruct (run (createCacheRequestInterceptor ["get"] url session1 noOptions getA) _)
    as [[outcome w'] tr].
  exact (proj1 H).
Defined.

Lemma follower_is_served_after_capture_witness :
  cacheable ["get"] url noOptions getA /\
  pendingRequests leaderWorld !! "/a" = Some 0%nat /\
  let '(outcome, _, tr) :=
    runs [captureA] (requestInterceptor session1 noOptions getA) leaderWorld in
  outcome = Returned (inr hitA) /\
  In (EAwait (PendingRequest 0)) tr.
Proof.
  assert (Hc : cacheable ["get"] url noOptions getA) by (repeat split; reflexivity).
  split; [exact Hc|]. split; [reflexivity|].
  pose proof (follower_is_served_after_capture ["get"] url decimal session1 noOptions
                responseA (handedOn getA) getA "s1" 0%nat leaderWorld
                eq_refl eq_refl eq_refl eq_refl eq_refl eq_refl eq_refl Hc eq_refl
                eq_refl eq_refl eq_refl eq_refl eq_refl) as H.
  cbv zeta in H. unfold requestInterceptor.
  change (fun w0 => snd (fst (runs [] (createCacheResponseInterceptor ["get"] url decimal
                                        noOptions responseA) w0)))
    with captureA in H.
  destruct (runs [captureA] _ leaderWorld) as [[outcome w'] tr].
  destruct H as (Ho & Hin & _). split; [exact Ho | exact Hin].
Defined.

Lemma bypass_skips_registry_and_cache_witness :
  isMethodSupported (v_methods (resolved ["get"] url noOptions postA)) (method postA) = false /\
  pendingRequests leaderWorld !! "/a" = Some 0%nat /\
  fst (fst (runs [] (requestInterceptor session1 noOptions postA) leaderWorld)) =
  Returned (inl (handedOn postA)) /\
  Forall (fun ev => isPendingGet ev = false /\ isPendingSet ev = false /\
                    isCacheGet ev = false)
         (snd (runs [] (requestInterceptor session1 noOptions postA) leaderWorld)).
Proof.
  split; [reflexivity|]. split; [reflexivity|]. split; [reflexivity|].
  pose proof (bypass_skips_registry_and_cache ["get"] url session1 noOptions postA []
                leaderWorld (or_intror eq_refl)) as H.
  unfold requestInterceptor.
  destruct (runs [] (createCacheRequestInterceptor ["get"] url session1 noOptions postA)
                 leaderWorld) as [[outcome w'] tr].
  exact (proj1 H).
Defined.

Lemma uncacheable_response_passes_through_witness :
  let response := fromNetwork (html "12" 12) (Some (handedOn postA)) in
  request response = Some (handedOn postA) /\
  isMethodSupported (v_methods (resolved ["get"] url noOptions (handedOn postA)))
                    (method (handedOn postA)) = false /\
  runs [] (responseInterceptor noOptions response) leaderWorld =
  (Returned response, leaderWorld, []).
Proof.
  cbv zeta. split; [reflexivity|]. split; [reflexivity|].
  exact (uncacheable_response_passes_through ["get"] url decimal noOptions
           (fromNetwork (html "12" 12) (Some (handedOn postA))) (handedOn postA) []
           leaderWorld eq_refl eq_refl).
Defined.
